(** * simple-date-helpers: a shallow embedding of [src/dateHelpers.ts]

    The library is eight small functions over the JavaScript [Date] object.
    The functions themselves are translated line by line in the module
    [DateHelpers]; the built-ins they call ([Date], [parseInt],
    [String.prototype.replace], [split], [padStart], [Math.floor],
    [Math.ceil]) are modelled after ECMA-262 in the modules that precede it.

    Numbers.  Every number the library manipulates is either an integer or
    NaN, so a JavaScript number is an [option Z] with [None] for NaN; a
    [Date] is its time value, milliseconds since the epoch, or NaN for an
    invalid date.  Arithmetic on [Z] is exact, and so is JavaScript's on
    integers up to 2^53: every time value is one (at most 8.64e15).  The
    difference of two time values can be larger, up to 1.728e16, and is then
    rounded to the nearest number: [JsNumber.subTime] rounds as binary64
    does, so that [timeAgo] and [getDayOfYear] see the difference that the
    code computes.  Strings are [string]s (code units below 256).

    Time zone and clock.  Both are ambient in JavaScript; here the zone is an
    explicit [TimeZone] argument and the current time an explicit [now]. *)

From Stdlib Require Import ZArith Lia Bool List Ascii String DecimalString.
From Stdlib Require DecimalPos DecimalZ.
Import ListNotations.

Local Open Scope Z_scope.

(** ** ECMA-262, Time Values and Time Range (section 21.4.1) *)

Module Ecma.

Definition msPerSecond : Z := 1000.
Definition msPerMinute : Z := 60000.
Definition msPerHour : Z := 3600000.
Definition msPerDay : Z := 86400000.

Definition Day (t : Z) : Z := t / msPerDay.
Definition TimeWithinDay (t : Z) : Z := t mod msPerDay.

Definition DaysInYear (y : Z) : Z :=
  if negb (y mod 4 =? 0) then 365
  else if negb (y mod 100 =? 0) then 366
  else if negb (y mod 400 =? 0) then 365
  else 366.

Definition DayFromYear (y : Z) : Z :=
  365 * (y - 1970) + (y - 1969) / 4 - (y - 1901) / 100 + (y - 1601) / 400.

Definition TimeFromYear (y : Z) : Z := msPerDay * DayFromYear y.

(** [YearFromTime t] is "the largest integer y such that TimeFromYear(y) <= t".
    It is computed from the estimate [1970 + floor (400 * day / 146097)],
    which is off by at most one year; [YearFromDay_spec] below shows that
    the result meets the defining property. *)
Definition YearFromDay (d : Z) : Z :=
  let y0 := 1970 + (400 * d) / 146097 in
  if DayFromYear (y0 + 1) <=? d then y0 + 1
  else if DayFromYear y0 <=? d then y0
  else y0 - 1.

Definition YearFromTime (t : Z) : Z := YearFromDay (Day t).

Definition InLeapYear (t : Z) : Z :=
  if DaysInYear (YearFromTime t) =? 366 then 1 else 0.

Definition DayWithinYear (t : Z) : Z := Day t - DayFromYear (YearFromTime t).

Definition MonthFromTime (t : Z) : Z :=
  let d := DayWithinYear t in
  let l := InLeapYear t in
  if d <? 31 then 0
  else if d <? 59 + l then 1
  else if d <? 90 + l then 2
  else if d <? 120 + l then 3
  else if d <? 151 + l then 4
  else if d <? 181 + l then 5
  else if d <? 212 + l then 6
  else if d <? 243 + l then 7
  else if d <? 273 + l then 8
  else if d <? 304 + l then 9
  else if d <? 334 + l then 10
  else 11.

Definition DateFromTime (t : Z) : Z :=
  let d := DayWithinYear t in
  let l := InLeapYear t in
  match MonthFromTime t with
  | 0 => d + 1
  | 1 => d - 30
  | 2 => d - 58 - l
  | 3 => d - 89 - l
  | 4 => d - 119 - l
  | 5 => d - 150 - l
  | 6 => d - 180 - l
  | 7 => d - 211 - l
  | 8 => d - 242 - l
  | 9 => d - 272 - l
  | 10 => d - 303 - l
  | _ => d - 333 - l
  end.

Definition WeekDay (t : Z) : Z := (Day t + 4) mod 7.

Definition HourFromTime (t : Z) : Z := (t / msPerHour) mod 24.
Definition MinFromTime (t : Z) : Z := (t / msPerMinute) mod 60.
Definition SecFromTime (t : Z) : Z := (t / msPerSecond) mod 60.
Definition msFromTime (t : Z) : Z := t mod msPerSecond.

Definition MakeTime (hour min sec ms : Z) : Z :=
  hour * msPerHour + min * msPerMinute + sec * msPerSecond + ms.

(** Number of days of the year [ym] that precede its month [mn] (0-based). *)
Definition DaysBeforeMonth (ym mn : Z) : Z :=
  let l := if DaysInYear ym =? 366 then 1 else 0 in
  match mn with
  | 0 => 0
  | 1 => 31
  | 2 => 59 + l
  | 3 => 90 + l
  | 4 => 120 + l
  | 5 => 151 + l
  | 6 => 181 + l
  | 7 => 212 + l
  | 8 => 243 + l
  | 9 => 273 + l
  | 10 => 304 + l
  | _ => 334 + l
  end.

(** [MakeDay]: "find a time value t such that YearFromTime(t) is ym,
    MonthFromTime(t) is mn and DateFromTime(t) is 1; return Day(t) + dt - 1".
    The [t] found is the start of day [DayFromYear ym + DaysBeforeMonth ym mn]
    ([MakeDay_finds] below).  This is the arithmetic of the specification;
    an engine carries it out for years and months of bounded size only (V8
    gives NaN for a year beyond a million or a month beyond ten million,
    whatever [ym] is), so that statements on all months or years keep to
    such sizes. *)
Definition MakeDay (year month date : Z) : Z :=
  let ym := year + month / 12 in
  let mn := month mod 12 in
  DayFromYear ym + DaysBeforeMonth ym mn + date - 1.

Definition MakeDate (day time : Z) : Z := day * msPerDay + time.

(** [MakeFullYear]: years 0..99 are read as 1900..1999. *)
Definition MakeFullYear (year : Z) : Z :=
  if (0 <=? year) && (year <=? 99) then 1900 + year else year.

Definition maxTime : Z := 8640000000000000.

Definition TimeClip (time : Z) : option Z :=
  if maxTime <? Z.abs time then None else Some time.

End Ecma.

Import Ecma.

(** ** JavaScript numbers, as far as the library uses them *)

Module JsNumber.

(** An integer, or [None] for NaN. *)
Definition t : Type := option Z.

Definition NaN : t := None.

Definition lift2 (f : Z -> Z -> Z) (a b : t) : t :=
  match a, b with
  | Some x, Some y => Some (f x y)
  | _, _ => None
  end.

(** Sums and differences of calendar fields, parsed parts and counts: small
    integers, on which the operations are exact. *)
Definition add : t -> t -> t := lift2 Z.add.
Definition sub : t -> t -> t := lift2 Z.sub.

(** The number nearest to the integer [x], ties to the even significand
    (IEEE 754 binary64, ECMA-262 6.1.6.1): an integer up to 2^53 in magnitude
    is a number itself, a larger one keeps its 53 leading bits.  (Integers
    from 2^1024 on, which round to an infinity, are out of reach of the
    library.) *)
Definition roundDouble (x : Z) : Z :=
  let a := Z.abs x in
  if a <=? 2 ^ 53 then x
  else
    let ulp := 2 ^ (Z.log2 a - 52) in
    let q := a / ulp in
    let r := a mod ulp in
    let up := (ulp <? 2 * r) || ((2 * r =? ulp) && Z.odd q) in
    Z.sgn x * ((if up then q + 1 else q) * ulp).

(** [a - b] where the exact difference can exceed 2^53, as that of two time
    values can. *)
Definition subTime : t -> t -> t := lift2 (fun x y => roundDouble (x - y)).

(** [Math.floor(a / c)] and [Math.ceil(a / c)] for a positive integer
    constant [c]: the quotient itself is not an integer, only its rounding
    is.  (For the counts and the differences of time values that the library
    divides, and its divisors, rounding the quotient to the nearest number
    never carries it to or across an integer, so that the floor and the
    ceiling are those of the exact quotient.) *)
Definition floorDiv (a : t) (c : Z) : t := option_map (fun x => x / c) a.
Definition ceilDiv (a : t) (c : Z) : t := option_map (fun x => - ((- x) / c)) a.

(** Comparisons; any comparison with NaN is false. *)
Definition ge (a : t) (c : Z) : bool :=
  match a with Some x => c <=? x | None => false end.
Definition gt (a : t) (c : Z) : bool :=
  match a with Some x => c <? x | None => false end.
Definition strictEq (a b : t) : bool :=
  match a, b with Some x, Some y => x =? y | _, _ => false end.

(** [Number::toString] in radix 10, on integers and NaN. *)
Definition toString (a : t) : string :=
  match a with
  | None => "NaN"%string
  | Some x => DecimalString.NilEmpty.string_of_int (Z.to_int x)
  end.

End JsNumber.

(** ** JavaScript strings, as far as the library uses them *)

Module JsString.

Local Open Scope string_scope.

Fixpoint drop (n : nat) (s : string) : string :=
  match n, s with
  | O, _ => s
  | S n', String _ s' => drop n' s'
  | S _, EmptyString => EmptyString
  end.

(** [s.replace(pattern, replacement)] with a string pattern: the first
    occurrence of [pattern], if any, is replaced.  (The replacement strings
    of this library are decimal numerals or "NaN" and contain no "$", so the
    substitution patterns of [GetSubstitution] never apply.) *)
Fixpoint replace (s pattern replacement : string) : string :=
  if prefix pattern s then replacement ++ drop (length pattern) s
  else match s with
       | EmptyString => EmptyString
       | String c s' => String c (replace s' pattern replacement)
       end.

(** [s.split(sep)] for a separator of one code unit and no limit. *)
Fixpoint split (s : string) (sep : ascii) : list string :=
  match s with
  | EmptyString => [EmptyString]
  | String c s' =>
      if Ascii.eqb c sep then EmptyString :: split s' sep
      else match split s' sep with
           | part :: parts => String c part :: parts
           | [] => [String c EmptyString]
           end
  end.

(** The first [n] code units of [filler] repeated. *)
Fixpoint fill (n : nat) (filler rest : string) : string :=
  match n with
  | O => EmptyString
  | S n' =>
      match rest with
      | String c r => String c (fill n' filler r)
      | EmptyString =>
          match filler with
          | String c r => String c (fill n' filler r)
          | EmptyString => EmptyString
          end
      end
  end.

(** [s.padStart(targetLength, padString)]. *)
Definition padStart (s : string) (targetLength : nat) (padString : string)
  : string :=
  if (targetLength <=? length s)%nat then s
  else fill (targetLength - length s) padString padString ++ s.

(** The value of a decimal digit, from its code unit "0" = 48 .. "9" = 57. *)
Definition digitValue (c : ascii) : option Z :=
  let code := Z.of_nat (nat_of_ascii c) in
  if ((48 <=? code) && (code <=? 57))%Z then Some (code - 48) else None.

(** White space and line terminators among the code units below 256. *)
Definition isWhiteSpace (c : ascii) : bool :=
  match nat_of_ascii c with
  | 9%nat | 10%nat | 11%nat | 12%nat | 13%nat | 32%nat | 160%nat => true
  | _ => false
  end.

Fixpoint trimStart (s : string) : string :=
  match s with
  | String c s' => if isWhiteSpace c then trimStart s' else s
  | EmptyString => s
  end.

(** The longest prefix of decimal digits, read left to right; [acc] is the
    value read so far, [None] while no digit has been read. *)
Fixpoint scanDigits (s : string) (acc : option Z) : option Z :=
  match s with
  | EmptyString => acc
  | String c s' =>
      match digitValue c with
      | Some d =>
          scanDigits s' (Some (10 * match acc with Some a => a | None => 0 end + d))
      | None => acc
      end
  end.

(** [parseInt(s, 10)]: leading white space is skipped, one sign is accepted,
    then the longest run of digits is read; NaN when there is none. *)
Definition parseInt (s : string) : JsNumber.t :=
  match trimStart s with
  | String c r =>
      if Ascii.eqb c "-" then option_map Z.opp (scanDigits r None)
      else if Ascii.eqb c "+" then scanDigits r None
      else scanDigits (String c r) None
  | EmptyString => None
  end.

End JsString.

(** ** The [Date] object *)

(** The local time zone: [LocalTZA t true] is the offset of local time from
    UTC, in milliseconds, at the UTC time value [t]; [LocalTZA t false] is
    the offset at the local time value [t]. *)
Record TimeZone : Type := { LocalTZA : Z -> bool -> Z }.

(** A zone that keeps one offset all year. *)
Definition fixedZone (offset : Z) : TimeZone :=
  {| LocalTZA := fun _ _ => offset |}.

Definition utcZone : TimeZone := fixedZone 0.

(** A zone with daylight saving time: one hour ahead of UTC, two hours from
    31 March 2024 01:00 UTC to 27 October 2024 01:00 UTC (the rule of Central
    Europe in 2024).  A local time that the clocks skip or repeat is read
    with the offset in force before the transition. *)
Definition dstStart2024 : Z := 1711846800000.
Definition dstEnd2024 : Z := 1729990800000.

Definition cetZone : TimeZone :=
  {| LocalTZA := fun tv isUTC =>
       if isUTC
       then if (dstStart2024 <=? tv) && (tv <? dstEnd2024)
            then 2 * msPerHour else msPerHour
       else if (dstStart2024 + 2 * msPerHour <=? tv)
               && (tv <? dstEnd2024 + 2 * msPerHour)
            then 2 * msPerHour else msPerHour |}.

Module Date.

(** The [[DateValue]] of a Date object: a time value, or NaN. *)
Definition t : Type := option Z.

Section WithZone.
Variable tz : TimeZone.

Definition LocalTime (tv : Z) : Z := tv + LocalTZA tz tv true.
Definition UTC (tv : Z) : Z := tv - LocalTZA tz tv false.

(** [new Date(year, month, date)]; the hours, minutes, seconds and
    milliseconds default to 0. *)
Definition create (year month date : JsNumber.t) : t :=
  match year, month, date with
  | Some y, Some m, Some dt =>
      let yr := MakeFullYear y in
      let finalDate := MakeDate (MakeDay yr m dt) (MakeTime 0 0 0 0) in
      TimeClip (UTC finalDate)
  | _, _, _ => None
  end.

(** [new Date(value)] where [value] is a Date object. *)
Definition copy (value : t) : t :=
  match value with
  | Some tv => TimeClip tv
  | None => None
  end.

Definition getTime (d : t) : JsNumber.t := d.

Definition localField (f : Z -> Z) (d : t) : JsNumber.t :=
  option_map (fun tv => f (LocalTime tv)) d.

Definition getFullYear : t -> JsNumber.t := localField YearFromTime.
Definition getMonth : t -> JsNumber.t := localField MonthFromTime.
Definition getDate : t -> JsNumber.t := localField DateFromTime.
Definition getDay : t -> JsNumber.t := localField WeekDay.
Definition getHours : t -> JsNumber.t := localField HourFromTime.
Definition getMinutes : t -> JsNumber.t := localField MinFromTime.
Definition getSeconds : t -> JsNumber.t := localField SecFromTime.

(** [d.setDate(date)]: the new [[DateValue]] of [d]. *)
Definition setDate (d : t) (date : JsNumber.t) : t :=
  match d, date with
  | Some tv, Some dt =>
      let tl := LocalTime tv in
      let newDate :=
        MakeDate (MakeDay (YearFromTime tl) (MonthFromTime tl) dt)
                 (TimeWithinDay tl) in
      TimeClip (UTC newDate)
  | _, _ => None
  end.

End WithZone.

End Date.

(** ** The library: [src/dateHelpers.ts] *)

Module DateHelpers.

Import JsString.
Local Open Scope string_scope.

(** Array indexing; an index past the end gives [undefined], which is NaN
    wherever the library uses it as a number. *)
Definition index (parts : list JsNumber.t) (i : nat) : JsNumber.t :=
  nth i parts JsNumber.NaN.

Section WithZone.
Variable tz : TimeZone.

Definition formatDate (date : Date.t) (format : string) : string :=
  let year := Date.getFullYear tz date in
  let month :=
    padStart (JsNumber.toString (JsNumber.add (Date.getMonth tz date) (Some 1)))
             2 "0" in
  let day := padStart (JsNumber.toString (Date.getDate tz date)) 2 "0" in
  let hour := padStart (JsNumber.toString (Date.getHours tz date)) 2 "0" in
  let minute := padStart (JsNumber.toString (Date.getMinutes tz date)) 2 "0" in
  let second := padStart (JsNumber.toString (Date.getSeconds tz date)) 2 "0" in
  replace
    (replace
       (replace
          (replace
             (replace
                (replace format "YYYY" (JsNumber.toString year))
                "MM" month)
             "DD" day)
          "HH" hour)
       "mm" minute)
    "ss" second.

Definition parseDate (dateString : string) : Date.t :=
  let parts := map (fun part => parseInt part) (split dateString "-") in
  Date.create tz (index parts 0)
              (JsNumber.sub (index parts 1) (Some 1))
              (index parts 2).

Definition addDays (date : Date.t) (days : JsNumber.t) : Date.t :=
  let result := Date.copy date in
  let result :=
    Date.setDate tz result (JsNumber.add (Date.getDate tz result) days) in
  result.

(** [now] is the time value that [new Date()] reads from the clock. *)
Definition isToday (now : Z) (date : Date.t) : bool :=
  let today : Date.t := Some now in
  JsNumber.strictEq (Date.getDate tz date) (Date.getDate tz today)
  && JsNumber.strictEq (Date.getMonth tz date) (Date.getMonth tz today)
  && JsNumber.strictEq (Date.getFullYear tz date) (Date.getFullYear tz today).

Definition getDayOfYear (date : Date.t) : JsNumber.t :=
  let start := Date.create tz (Date.getFullYear tz date) (Some 0) (Some 0) in
  let diff := JsNumber.subTime (Date.getTime date) (Date.getTime start) in
  let oneDay := 1000 * 60 * 60 * 24 in
  JsNumber.floorDiv diff oneDay.

Definition getWeekNumber (date : Date.t) : JsNumber.t :=
  let oneJan := Date.create tz (Date.getFullYear tz date) (Some 0) (Some 1) in
  let daysInYear := getDayOfYear date in
  JsNumber.ceilDiv
    (JsNumber.add (JsNumber.add daysInYear (Date.getDay tz oneJan)) (Some 1))
    7.

Definition getDaysInMonth (month year : JsNumber.t) : JsNumber.t :=
  Date.getDate tz (Date.create tz year month (Some 0)).

End WithZone.

Definition timeAgo (now : Z) (date : Date.t) : string :=
  let seconds :=
    JsNumber.floorDiv
      (JsNumber.subTime (Date.getTime (Some now)) (Date.getTime date)) 1000 in
  let interval := JsNumber.floorDiv seconds 31536000 in
  if JsNumber.ge interval 1 then JsNumber.toString interval ++ " years ago"
  else
  let interval := JsNumber.floorDiv seconds 2592000 in
  if JsNumber.ge interval 1 then JsNumber.toString interval ++ " months ago"
  else
  let interval := JsNumber.floorDiv seconds 86400 in
  if JsNumber.strictEq interval (Some 1) then "Yesterday"
  else
  if JsNumber.gt interval 1 then JsNumber.toString interval ++ " days ago"
  else
  let interval := JsNumber.floorDiv seconds 3600 in
  if JsNumber.ge interval 1 then JsNumber.toString interval ++ " hours ago"
  else
  let interval := JsNumber.floorDiv seconds 60 in
  if JsNumber.ge interval 1 then JsNumber.toString interval ++ " minutes ago"
  else (* Math.floor(seconds) *)
    JsNumber.toString (JsNumber.floorDiv seconds 1) ++ " seconds ago".

End DateHelpers.

Import DateHelpers.

Import JsString.

Local Open Scope string_scope.
Local Open Scope Z_scope.

(** ** The vocabulary of the specification *)

(** *** The Gregorian calendar *)

Definition isLeapYear (year : Z) : bool :=
  ((year mod 4 =? 0) && negb (year mod 100 =? 0)) || (year mod 400 =? 0).

(** Days of the 1-based [month] in a leap or a common year. *)
Definition daysInMonthOf (leap : bool) (month : Z) : Z :=
  match month with
  | 2 => if leap then 29 else 28
  | 4 | 6 | 9 | 11 => 30
  | 1 | 3 | 5 | 7 | 8 | 10 | 12 => 31
  | _ => 0
  end.

(** Days of the 1-based [month] of [year]. *)
Definition daysInMonth (year month : Z) : Z :=
  daysInMonthOf (isLeapYear year) month.

(** The 1-based ordinal of a day within its year: the days of the months
    before its month, and the day of the month. *)
Definition ordinalDay (year month day : Z) : Z :=
  fold_left Z.add
    (map (fun i => daysInMonth year (Z.of_nat i))
         (seq 1 (Z.to_nat (month - 1))))
    0
  + day.

(** Weekday (0 = Sunday) of 1 January of [year]. *)
Definition weekdayOfJan1 (year : Z) : Z := WeekDay (TimeFromYear year).

(** *** Dates *)

(** A time value that a Date object can hold. *)
Definition validTime (tv : Z) : Prop := Z.abs tv <= maxTime.

(** The local time that [parseDate] asks for. *)
Definition localMidnight (y m d : Z) : Z :=
  MakeDate (MakeDay (MakeFullYear y) (m - 1) d) 0.

(** The zone reads the local time [tl] as an instant that a Date can hold
    and that shows the local time [tl] again: [tl] exists in the zone. *)
Definition keepsLocalTime (tz : TimeZone) (tl : Z) : Prop :=
  validTime (Date.UTC tz tl) /\ Date.LocalTime tz (Date.UTC tz tl) = tl.

(** The same, up to the time of day: the instant falls on the local day of
    [tl]. *)
Definition keepsLocalDay (tz : TimeZone) (tl : Z) : Prop :=
  validTime (Date.UTC tz tl)
  /\ Day (Date.LocalTime tz (Date.UTC tz tl)) = Day tl.

(** The first three parts as numbers, when each of them has one. *)
Definition firstThree (parts : list JsNumber.t) : option (Z * Z * Z) :=
  match parts with
  | (Some y :: Some m :: Some d :: _)%list => Some (y, m, d)
  | _ => None
  end.

(** 31 December 2000, 00:00 UTC, and 1 January of the year 50, 00:00 UTC. *)
Definition tv_2000_12_31 : Z := 978220800000.
Definition tv_0050_01_01 : Z := -60589296000000.

(** *** Elapsed time *)

(** The buckets as the specification lists them, on the elapsed seconds. *)
Definition timeAgoPhrase (seconds : Z) : string :=
  if 31536000 <=? seconds
  then JsNumber.toString (Some (seconds / 31536000)) ++ " years ago"
  else if 2592000 <=? seconds
  then JsNumber.toString (Some (seconds / 2592000)) ++ " months ago"
  else if seconds / 86400 =? 1 then "Yesterday"
  else if 1 <? seconds / 86400
  then JsNumber.toString (Some (seconds / 86400)) ++ " days ago"
  else if 3600 <=? seconds
  then JsNumber.toString (Some (seconds / 3600)) ++ " hours ago"
  else if 60 <=? seconds
  then JsNumber.toString (Some (seconds / 60)) ++ " minutes ago"
  else JsNumber.toString (Some seconds) ++ " seconds ago".

(** *** Text *)

Fixpoint allChars (P : ascii -> bool) (s : string) : bool :=
  match s with
  | EmptyString => true
  | String c s' => P c && allChars P s'
  end.

(** [c] does not occur in the string. *)
Definition noChar (c : ascii) : string -> bool :=
  allChars (fun a => negb (Ascii.eqb a c)).

(** Occurrence of a pattern anywhere in a string. *)
Fixpoint occurs (p s : string) : bool :=
  prefix p s
  || match s with
     | EmptyString => false
     | String _ s' => occurs p s'
     end.

Definition isDigit (c : ascii) : bool :=
  match digitValue c with Some _ => true | None => false end.

(** The letters that tokens are made of. *)
Definition isTokenChar (c : ascii) : bool :=
  existsb (Ascii.eqb c) ["Y"; "M"; "D"; "H"; "m"; "s"]%char.

(** Literal text: no letter of any token. *)
Definition isLiteral : string -> bool :=
  allChars (fun c => negb (isTokenChar c)).

(** "Zero-padded to two digits", and the year "as four digits". *)
Definition digitChar (d : Z) : ascii := ascii_of_nat (48 + Z.to_nat d).

Definition twoDigits (n : Z) : string :=
  String (digitChar (n / 10)) (String (digitChar (n mod 10)) "").

Definition fourDigits (n : Z) : string :=
  String (digitChar (n / 1000))
    (String (digitChar (n / 100 mod 10))
       (String (digitChar (n / 10 mod 10))
          (String (digitChar (n mod 10)) ""))).

Definition tokens : list string := ["YYYY"; "MM"; "DD"; "HH"; "mm"; "ss"]%list.

(** The text that [formatDate] puts in the place of a token. *)
Definition tokenText (tz : TimeZone) (date : Date.t) (token : string) : string :=
  let padded (field : JsNumber.t) :=
    JsString.padStart (JsNumber.toString field) 2 "0" in
  if String.eqb token "YYYY" then JsNumber.toString (Date.getFullYear tz date)
  else if String.eqb token "MM"
  then padded (JsNumber.add (Date.getMonth tz date) (Some 1))
  else if String.eqb token "DD" then padded (Date.getDate tz date)
  else if String.eqb token "HH" then padded (Date.getHours tz date)
  else if String.eqb token "mm" then padded (Date.getMinutes tz date)
  else if String.eqb token "ss" then padded (Date.getSeconds tz date)
  else token.

(** [token] occurs in [s] after [before], and starts nowhere earlier. *)
Definition firstOccurrence (token s before after : string) : Prop :=
  s = before ++ token ++ after
  /\ forall k, (k < String.length before)%nat ->
               prefix token (JsString.drop k s) = false.

(** "Only the first occurrence is substituted": [result] is [s] with [text]
    in the place of the first occurrence of [token], and [s] itself when
    [token] does not occur. *)
Definition substitutesFirst (token text s result : string) : Prop :=
  (occurs token s = false /\ result = s)
  \/ exists before after,
       firstOccurrence token s before after
       /\ result = before ++ text ++ after.

(** One such substitution for each token of a list, in the order of the
    list. *)
Fixpoint substitutesEach (text : string -> string) (toks : list string)
    (s result : string) : Prop :=
  match toks with
  | []%list => result = s
  | (token :: rest)%list =>
      exists mid,
        substitutesFirst token (text token) s mid
        /\ substitutesEach text rest mid result
  end.

(** *** Templates as pieces *)

(** A template cut into pieces: literal text and tokens. *)
Inductive Segment : Type :=
| Lit (text : string)
| Tok (token : string).

Definition render (segments : list Segment) : string :=
  fold_right (fun seg rest =>
                match seg with Lit text => text | Tok token => token end
                ++ rest)
             "" segments.

(** Literal pieces have no letter of a token, and token pieces are tokens. *)
Definition wellFormed (segments : list Segment) : bool :=
  forallb (fun seg =>
             match seg with
             | Lit text => isLiteral text
             | Tok token => existsb (String.eqb token) tokens
             end)
          segments.

Definition tokensOf (segments : list Segment) : list string :=
  flat_map (fun seg => match seg with Lit _ => [] | Tok token => [token] end)
           segments.

(** The first piece that is [token] becomes the literal [text]. *)
Fixpoint substFirst (token text : string) (segments : list Segment)
  : list Segment :=
  match segments with
  | [] => []
  | Lit s :: rest => Lit s :: substFirst token text rest
  | Tok t :: rest =>
      if String.eqb t token then Lit text :: rest
      else Tok t :: substFirst token text rest
  end%list.

(** Every token piece becomes the literal [text] of its token. *)
Definition substAll (text : string -> string) (segments : list Segment)
  : list Segment :=
  map (fun seg => match seg with Lit s => Lit s | Tok t => Lit (text t) end)
      segments.

(** *** Inputs of [parseDate] *)

(** Number of occurrences of a code unit. *)
Fixpoint countChar (c : ascii) (s : string) : nat :=
  match s with
  | EmptyString => O
  | String x s' => ((if Ascii.eqb x c then 1 else 0) + countChar c s')%nat
  end.

(** Nothing, or text that does not start with a digit. *)
Definition noLeadingDigit (s : string) : bool :=
  match s with
  | EmptyString => true
  | String c _ => negb (isDigit c)
  end.

(** ** Calendar arithmetic *)

(** Linear arithmetic with floor division and remainder by constants. *)
Ltac div_lia := Z.to_euclidean_division_equations; lia.

Lemma DayFromYear_succ y : DayFromYear (y + 1) = DayFromYear y + DaysInYear y.
Proof.
  unfold DayFromYear, DaysInYear.
  repeat match goal with |- context [?a =? ?b] => destruct (Z.eqb_spec a b) end;
    cbn [negb]; div_lia.
Qed.

Lemma DaysInYear_range y : DaysInYear y = 365 \/ DaysInYear y = 366.
Proof.
  unfold DaysInYear.
  repeat match goal with |- context [?a =? ?b] => destruct (Z.eqb_spec a b) end;
    cbn [negb]; auto.
Qed.

Lemma DayFromYear_mono a b : a <= b -> DayFromYear a <= DayFromYear b.
Proof. unfold DayFromYear. div_lia. Qed.

Lemma YearFromDay_spec d :
  DayFromYear (YearFromDay d) <= d < DayFromYear (YearFromDay d + 1).
Proof.
  unfold YearFromDay.
  set (y0 := 1970 + 400 * d / 146097).
  assert (Hlo : DayFromYear (y0 - 1) <= d)
    by (unfold DayFromYear, y0; div_lia).
  assert (Hhi : d < DayFromYear (y0 + 2))
    by (unfold DayFromYear, y0; div_lia).
  destruct (Z.leb_spec (DayFromYear (y0 + 1)) d).
  - replace (y0 + 1 + 1) with (y0 + 2) by lia. lia.
  - destruct (Z.leb_spec (DayFromYear y0) d).
    + lia.
    + replace (y0 - 1 + 1) with y0 by lia. lia.
Qed.

(** ** Differences of time values *)

Lemma roundDouble_exact x :
  Z.abs x <= 2 ^ 53 -> JsNumber.roundDouble x = x.
Proof.
  intros Hx. unfold JsNumber.roundDouble. cbv zeta.
  destruct (Z.leb_spec (Z.abs x) (2 ^ 53)); [reflexivity | lia].
Qed.

(** Beyond 2^53 the number keeps 53 bits: it is the magnitude [m] of a
    significand of at least 2^52 and a unit of at least 2. *)
Lemma roundDouble_magnitude x :
  2 ^ 53 < Z.abs x ->
  exists m, JsNumber.roundDouble x = Z.sgn x * m /\ 2 ^ 53 <= m.
Proof.
  intros Hx. unfold JsNumber.roundDouble. cbv zeta.
  destruct (Z.leb_spec (Z.abs x) (2 ^ 53)) as [Hle|_]; [lia|].
  set (a := Z.abs x) in *.
  set (ulp := 2 ^ (Z.log2 a - 52)).
  set (q := a / ulp).
  set (up := (ulp <? 2 * (a mod ulp)) || ((2 * (a mod ulp) =? ulp) && Z.odd q)).
  exists ((if up then q + 1 else q) * ulp). split; [reflexivity|].
  assert (Ha : 0 < a) by (change (2 ^ 53) with 9007199254740992 in Hx; lia).
  pose proof (Z.log2_spec a Ha) as [Hlow _].
  assert (Hlog : 53 <= Z.log2 a).
  { rewrite <- (Z.log2_pow2 53) by lia. apply Z.log2_le_mono. lia. }
  assert (Hulp : 2 <= ulp).
  { change 2 with (2 ^ 1) at 1. apply Z.pow_le_mono_r; lia. }
  assert (Hsplit : 2 ^ Z.log2 a = 2 ^ 52 * ulp).
  { unfold ulp. rewrite <- Z.pow_add_r by lia. f_equal. lia. }
  assert (Hq : 2 ^ 52 <= q).
  { apply Z.div_le_lower_bound; [lia|]. rewrite Z.mul_comm, <- Hsplit. exact Hlow. }
  change (2 ^ 53) with 9007199254740992.
  change (2 ^ 52) with 4503599627370496 in Hq.
  destruct up; nia.
Qed.

(** The rounded difference is the difference itself, or both are beyond
    2^53 on the same side. *)
Lemma roundDouble_cases x :
  JsNumber.roundDouble x = x
  \/ (2 ^ 53 < x /\ 2 ^ 53 <= JsNumber.roundDouble x)
  \/ (x < - 2 ^ 53 /\ JsNumber.roundDouble x <= - 2 ^ 53).
Proof.
  destruct (Z.le_gt_cases (Z.abs x) (2 ^ 53)) as [Hle|Hgt].
  - left. now apply roundDouble_exact.
  - right. destruct (roundDouble_magnitude x Hgt) as (m & -> & Hm).
    change (2 ^ 53) with 9007199254740992 in *.
    destruct (Z.abs_spec x) as [[Hx Habs]|[Hx Habs]]; rewrite Habs in Hgt.
    + left. rewrite Z.sgn_pos by lia. lia.
    + right. rewrite Z.sgn_neg by lia. lia.
Qed.

(** ** The calendar functions invert each other *)

(** The defining property of [YearFromTime]. *)
Lemma YearFromTime_spec t :
  TimeFromYear (YearFromTime t) <= t < TimeFromYear (YearFromTime t + 1).
Proof.
  unfold YearFromTime, TimeFromYear.
  pose proof (YearFromDay_spec (Day t)) as Hs.
  unfold Day, msPerDay in *. div_lia.
Qed.

Lemma YearFromDay_unique y d :
  DayFromYear y <= d < DayFromYear (y + 1) -> YearFromDay d = y.
Proof.
  intros Hy.
  pose proof (YearFromDay_spec d) as Hs.
  destruct (Z.lt_trichotomy (YearFromDay d) y) as [Hlt | [Heq | Hgt]]; auto.
  - pose proof (DayFromYear_mono (YearFromDay d + 1) y ltac:(lia)). lia.
  - pose proof (DayFromYear_mono (y + 1) (YearFromDay d) ltac:(lia)). lia.
Qed.

Lemma Day_MakeDate d tod :
  0 <= tod < msPerDay -> Day (MakeDate d tod) = d.
Proof. unfold Day, MakeDate, msPerDay. intros. div_lia. Qed.

Lemma TimeWithinDay_MakeDate d tod :
  0 <= tod < msPerDay -> TimeWithinDay (MakeDate d tod) = tod.
Proof. unfold TimeWithinDay, MakeDate, msPerDay. intros. div_lia. Qed.

Lemma MakeDate_Day t : MakeDate (Day t) (TimeWithinDay t) = t.
Proof. unfold Day, TimeWithinDay, MakeDate, msPerDay. div_lia. Qed.

Lemma TimeWithinDay_range t : 0 <= TimeWithinDay t < msPerDay.
Proof. unfold TimeWithinDay, msPerDay. div_lia. Qed.

Lemma isLeapYear_DaysInYear y :
  DaysInYear y = if isLeapYear y then 366 else 365.
Proof.
  unfold DaysInYear, isLeapYear.
  repeat match goal with |- context [?a =? ?b] => destruct (Z.eqb_spec a b) end;
    cbn; try reflexivity; exfalso; div_lia.
Qed.

Ltac month_cases m :=
  match goal with
  | H : 0 <= m <= 11 |- _ =>
      assert (m = 0 \/ m = 1 \/ m = 2 \/ m = 3 \/ m = 4 \/ m = 5 \/ m = 6
              \/ m = 7 \/ m = 8 \/ m = 9 \/ m = 10 \/ m = 11) as Hcases by lia;
      clear H;
      repeat (destruct Hcases as [Hcases | Hcases]); subst m;
      change (0 + 1) with 1 in *; change (1 + 1) with 2 in *;
      change (2 + 1) with 3 in *; change (3 + 1) with 4 in *;
      change (4 + 1) with 5 in *; change (5 + 1) with 6 in *;
      change (6 + 1) with 7 in *; change (7 + 1) with 8 in *;
      change (8 + 1) with 9 in *; change (9 + 1) with 10 in *;
      change (10 + 1) with 11 in *; change (11 + 1) with 12 in *
  end.

Ltac leap_cases y :=
  destruct (isLeapYear y);
  change (366 =? 366) with true in *; change (365 =? 366) with false in *;
  cbv beta iota in *.

Ltac leb_cases :=
  repeat match goal with
         | |- context [?a <? ?b] => destruct (Z.ltb_spec a b); try lia
         | |- context [?a =? ?b] => destruct (Z.eqb_spec a b); try lia
         end.

Lemma DaysBeforeMonth_range y m :
  0 <= m <= 11 ->
  0 <= DaysBeforeMonth y m
  /\ DaysBeforeMonth y m + daysInMonth y (m + 1) <= DaysInYear y.
Proof.
  intros Hm. rewrite isLeapYear_DaysInYear.
  unfold DaysBeforeMonth, daysInMonth, daysInMonthOf. rewrite isLeapYear_DaysInYear.
  month_cases m; leap_cases y; lia.
Qed.

Lemma InLeapYear_year t y :
  YearFromTime t = y -> InLeapYear t = if isLeapYear y then 1 else 0.
Proof.
  intros <-. unfold InLeapYear. rewrite isLeapYear_DaysInYear.
  now destruct (isLeapYear (YearFromTime t)).
Qed.

(** The day number within the year determines month and date. *)
Lemma fields_of_day y m dt d :
  0 <= m <= 11 -> 1 <= dt <= daysInMonth y (m + 1) ->
  d = DayFromYear y + DaysBeforeMonth y m + dt - 1 ->
  forall t, Day t = d ->
  YearFromTime t = y /\ MonthFromTime t = m /\ DateFromTime t = dt.
Proof.
  intros Hm Hdt -> t Ht.
  pose proof (DaysBeforeMonth_range y m Hm) as [Hb0 Hb1].
  assert (Hy : YearFromTime t = y).
  { unfold YearFromTime. rewrite Ht. apply YearFromDay_unique.
    rewrite DayFromYear_succ. lia. }
  assert (Hw : DayWithinYear t = DaysBeforeMonth y m + dt - 1)
    by (unfold DayWithinYear; rewrite Hy, Ht; lia).
  pose proof (InLeapYear_year t y Hy) as Hl.
  clear Hb0 Hb1 Ht.
  assert (Hmon : MonthFromTime t = m).
  { unfold MonthFromTime. rewrite Hw, Hl. clear Hw Hl Hy.
    unfold DaysBeforeMonth, daysInMonth, daysInMonthOf in *.
    rewrite isLeapYear_DaysInYear.
    month_cases m; leap_cases y; leb_cases; reflexivity. }
  split; [exact Hy|]. split; [exact Hmon|].
  unfold DateFromTime. rewrite Hmon, Hw, Hl.
  unfold DaysBeforeMonth. rewrite isLeapYear_DaysInYear.
  clear - Hm. month_cases m; leap_cases y; lia.
Qed.

Lemma MakeDay_month y m dt :
  0 <= m <= 11 -> MakeDay y m dt = DayFromYear y + DaysBeforeMonth y m + dt - 1.
Proof.
  intros Hm. unfold MakeDay.
  replace (m / 12) with 0 by div_lia.
  replace (m mod 12) with m by div_lia.
  now rewrite Z.add_0_r.
Qed.

(** [MakeDay] finds a day whose fields are the ones asked for. *)
Lemma MakeDay_finds y m dt tod :
  0 <= m <= 11 -> 1 <= dt <= daysInMonth y (m + 1) -> 0 <= tod < msPerDay ->
  let t := MakeDate (MakeDay y m dt) tod in
  YearFromTime t = y /\ MonthFromTime t = m /\ DateFromTime t = dt.
Proof.
  intros Hm Hdt Htod t.
  apply (fields_of_day y m dt (MakeDay y m dt)); auto.
  - now apply MakeDay_month.
  - now apply Day_MakeDate.
Qed.

(** Conversely the fields of a time value are a calendar date, and [MakeDay]
    of them is its day. *)
Lemma DayWithinYear_range t : 0 <= DayWithinYear t < DaysInYear (YearFromTime t).
Proof.
  unfold DayWithinYear, YearFromTime.
  pose proof (YearFromDay_spec (Day t)) as Hs.
  rewrite DayFromYear_succ in Hs. lia.
Qed.

Lemma MonthFromTime_range t : 0 <= MonthFromTime t <= 11.
Proof. unfold MonthFromTime. leb_cases. Qed.

Lemma fields_of_time t :
  1 <= DateFromTime t <= daysInMonth (YearFromTime t) (MonthFromTime t + 1)
  /\ Day t = DayFromYear (YearFromTime t)
             + DaysBeforeMonth (YearFromTime t) (MonthFromTime t)
             + DateFromTime t - 1.
Proof.
  pose proof (DayWithinYear_range t) as Hr.
  unfold DateFromTime, MonthFromTime, InLeapYear, DaysBeforeMonth, daysInMonth,
    daysInMonthOf.
  assert (Hd : Day t = DayFromYear (YearFromTime t) + DayWithinYear t)
    by (unfold DayWithinYear; lia).
  rewrite Hd. revert Hr. generalize (DayWithinYear t) as d.
  rewrite isLeapYear_DaysInYear. intros d Hr.
  destruct (isLeapYear (YearFromTime t)); cbn in Hr |- *;
    leb_cases; cbn; lia.
Qed.

Lemma MakeDay_fields t :
  MakeDay (YearFromTime t) (MonthFromTime t) (DateFromTime t) = Day t.
Proof.
  rewrite MakeDay_month by apply MonthFromTime_range.
  symmetry. apply fields_of_time.
Qed.

(** Year, month and date are those of the day. *)
Lemma same_day_same_date t1 t2 :
  Day t1 = Day t2 ->
  YearFromTime t1 = YearFromTime t2
  /\ MonthFromTime t1 = MonthFromTime t2
  /\ DateFromTime t1 = DateFromTime t2.
Proof.
  intros Hd.
  assert (Hy : YearFromTime t1 = YearFromTime t2)
    by (unfold YearFromTime; now rewrite Hd).
  assert (Hm : MonthFromTime t1 = MonthFromTime t2)
    by (unfold MonthFromTime, DayWithinYear, InLeapYear; now rewrite Hd, Hy).
  repeat split; auto.
  unfold DateFromTime, DayWithinYear, InLeapYear. now rewrite Hd, Hy, Hm.
Qed.

Lemma MakeDay_shift y m dt k : MakeDay y m (dt + k) = MakeDay y m dt + k.
Proof. unfold MakeDay. lia. Qed.

Lemma DateFromTime_range t : 1 <= DateFromTime t <= 31.
Proof.
  pose proof (fields_of_time t) as [H _].
  pose proof (MonthFromTime_range t) as Hm.
  revert H. unfold daysInMonth, daysInMonthOf. generalize (YearFromTime t) as y.
  generalize (DateFromTime t) as d. generalize dependent (MonthFromTime t).
  intros m Hm d y. month_cases m; cbn; try destruct (isLeapYear y); lia.
Qed.

Lemma HourFromTime_range t : 0 <= HourFromTime t <= 23.
Proof. unfold HourFromTime. div_lia. Qed.
Lemma MinFromTime_range t : 0 <= MinFromTime t <= 59.
Proof. unfold MinFromTime. div_lia. Qed.
Lemma SecFromTime_range t : 0 <= SecFromTime t <= 59.
Proof. unfold SecFromTime. div_lia. Qed.

(** ** Strings: replacement, splitting and numerals *)

Lemma app_assoc (a b c : string) : (a ++ b) ++ c = a ++ b ++ c.
Proof. induction a as [|x a IH]; simpl; [reflexivity | now rewrite IH]. Qed.

Lemma app_nil_r (a : string) : a ++ "" = a.
Proof. induction a as [|x a IH]; simpl; [reflexivity | now rewrite IH]. Qed.

Lemma allChars_app P a b :
  allChars P (a ++ b) = allChars P a && allChars P b.
Proof.
  induction a as [|x a IH]; simpl; [reflexivity|].
  now rewrite IH, andb_assoc.
Qed.

Lemma allChars_impl (P Q : ascii -> bool) s :
  (forall c, P c = true -> Q c = true) ->
  allChars P s = true -> allChars Q s = true.
Proof.
  intros HPQ. induction s as [|x s IH]; simpl; [reflexivity|].
  intros [Hx Hs]%andb_prop. rewrite (HPQ _ Hx), (IH Hs). reflexivity.
Qed.

Lemma prefix_app p s : prefix p (p ++ s) = true.
Proof.
  induction p as [|x p IH]; simpl; [now destruct s|].
  destruct (ascii_dec x x); [exact IH | congruence].
Qed.

Lemma drop_app p s : drop (String.length p) (p ++ s) = s.
Proof. induction p as [|x p IH]; simpl; auto. Qed.

(** The first occurrence is replaced... *)
Lemma replace_here p s r : replace (p ++ s) p r = r ++ s.
Proof.
  destruct p as [|c p].
  - simpl. destruct s; reflexivity.
  - change (replace (String c p ++ s) (String c p) r)
      with (if prefix (String c p) (String c p ++ s)
            then r ++ drop (String.length (String c p)) (String c p ++ s)
            else String c (replace (p ++ s) (String c p) r)).
    now rewrite prefix_app, drop_app.
Qed.

(** ... after any text that cannot start the pattern. *)
Lemma replace_skip c p a b r :
  noChar c a = true ->
  replace (a ++ b) (String c p) r = a ++ replace b (String c p) r.
Proof.
  induction a as [|x a IH]; [reflexivity|].
  unfold noChar. simpl. intros [Hx Ha]%andb_prop.
  apply negb_true_iff in Hx.
  destruct (ascii_dec c x) as [->|_].
  - now rewrite Ascii.eqb_refl in Hx.
  - now rewrite (IH Ha).
Qed.

Lemma replace_absent c p a r :
  noChar c a = true -> replace a (String c p) r = a.
Proof.
  intros Ha. rewrite <- (app_nil_r a) at 1.
  rewrite (replace_skip _ _ _ _ _ Ha). simpl. apply app_nil_r.
Qed.

Lemma replace_no_occurrence p s r : occurs p s = false -> replace s p r = s.
Proof.
  induction s as [|x s IH].
  - destruct p; simpl; [discriminate | reflexivity].
  - intros H.
    change (occurs p (String x s))
      with (prefix p (String x s) || occurs p s) in H.
    apply orb_false_elim in H as [Hp Ho].
    change (replace (String x s) p r)
      with (if prefix p (String x s)
            then r ++ drop (String.length p) (String x s)
            else String x (replace s p r)).
    now rewrite Hp, (IH Ho).
Qed.

(** In general: the text before the first occurrence and the text after it,
    later occurrences included, are kept. *)
Lemma replace_first_occurrence p pre post r :
  (forall k, (k < String.length pre)%nat ->
             prefix p (drop k (pre ++ p ++ post)) = false) ->
  replace (pre ++ p ++ post) p r = pre ++ r ++ post.
Proof.
  induction pre as [|x pre IH]; intros Hfirst.
  - exact (replace_here p post r).
  - change (replace (String x pre ++ p ++ post) p r)
      with (if prefix p (String x (pre ++ p ++ post))
            then r ++ drop (String.length p) (String x (pre ++ p ++ post))
            else String x (replace (pre ++ p ++ post) p r)).
    pose proof (Hfirst 0%nat ltac:(simpl; lia)) as H0.
    change (prefix p (String x (pre ++ p ++ post)) = false) in H0.
    rewrite H0, IH; [reflexivity|].
    intros k Hk. apply (Hfirst (S k)). simpl. lia.
Qed.

Lemma prefix_split p s :
  prefix p s = true -> s = p ++ drop (String.length p) s.
Proof.
  revert s. induction p as [|c p IH]; intros s H; [reflexivity|].
  destruct s as [|x s]; [discriminate|]. simpl in H.
  destruct (ascii_dec c x) as [->|]; [|discriminate].
  simpl. f_equal. now apply IH.
Qed.

Lemma occurs_unfold p s :
  occurs p s
  = prefix p s
    || match s with
       | EmptyString => false
       | String _ s' => occurs p s'
       end.
Proof. destruct s; reflexivity. Qed.

(** A pattern that occurs has a first occurrence. *)
Lemma occurs_first p s :
  occurs p s = true -> exists before after, firstOccurrence p s before after.
Proof.
  induction s as [|x s IH]; intros H; rewrite occurs_unfold in H.
  - rewrite orb_false_r in H.
    exists "", (drop (String.length p) ""). split.
    + now apply prefix_split.
    + intros k Hk. simpl in Hk. lia.
  - destruct (prefix p (String x s)) eqn:Hp.
    + exists "", (drop (String.length p) (String x s)). split.
      * now apply prefix_split.
      * intros k Hk. simpl in Hk. lia.
    + cbn [orb] in H. destruct (IH H) as (b & a & Hs & Hfirst).
      exists (String x b), a. split.
      * simpl. now rewrite <- Hs.
      * intros [|k] Hk; [exact Hp|].
        cbn [drop]. apply Hfirst. simpl in Hk. lia.
Qed.

(** [replace] substitutes the first occurrence and nothing else. *)
Lemma substitutesFirst_replace token text s result :
  substitutesFirst token text s result <-> result = replace s token text.
Proof.
  split.
  - intros [[Hno ->] | (b & a & [Hs Hfirst] & ->)].
    + symmetry. now apply replace_no_occurrence.
    + subst s. symmetry. now apply replace_first_occurrence.
  - intros ->. destruct (occurs token s) eqn:Hocc.
    + right. destruct (occurs_first _ _ Hocc) as (b & a & Hfo).
      exists b, a. split; [exact Hfo|].
      destruct Hfo as [Hs Hfirst]. subst s.
      now apply replace_first_occurrence.
    + left. split; [exact Hocc|]. now apply replace_no_occurrence.
Qed.

Lemma substitutesEach_fold text toks s result :
  substitutesEach text toks s result
  <-> result = fold_left (fun s token => replace s token (text token)) toks s.
Proof.
  revert s. induction toks as [|token rest IH]; intros s;
    cbn [substitutesEach fold_left]; [reflexivity|].
  split.
  - intros (mid & Hmid & Hrest). apply substitutesFirst_replace in Hmid.
    subst mid. now apply IH.
  - intros ->. eexists. split.
    + apply substitutesFirst_replace. reflexivity.
    + apply IH. reflexivity.
Qed.

(** Splitting a string whose first part has no separator. *)
Lemma split_single a sep : noChar sep a = true -> split a sep = [a].
Proof.
  induction a as [|x a IH]; [reflexivity|].
  unfold noChar. simpl. intros [Hx Ha]%andb_prop.
  apply negb_true_iff in Hx. now rewrite Hx, (IH Ha).
Qed.

Lemma split_app a sep b :
  noChar sep a = true ->
  split (a ++ String sep b) sep = a :: split b sep.
Proof.
  induction a as [|x a IH].
  - intros _. simpl. now rewrite Ascii.eqb_refl.
  - unfold noChar. simpl. intros [Hx Ha]%andb_prop.
    apply negb_true_iff in Hx. now rewrite Hx, (IH Ha).
Qed.

(** ** Numerals: [Number::toString], [padStart] and [parseInt] *)

Lemma Zrange_forall (P : Z -> bool) (k : nat) :
  forallb (fun i => P (Z.of_nat i)) (seq 0 k) = true ->
  forall n, 0 <= n < Z.of_nat k -> P n = true.
Proof.
  intros H n Hn. rewrite forallb_forall in H.
  specialize (H (Z.to_nat n)). rewrite Z2Nat.id in H by lia.
  apply H, in_seq. lia.
Qed.

Lemma digit_facts c :
  isDigit c = true ->
  isTokenChar c = false /\ isWhiteSpace c = false
  /\ Ascii.eqb c "-" = false /\ Ascii.eqb c "+" = false.
Proof.
  intros Hc.
  destruct c as [[|] [|] [|] [|] [|] [|] [|] [|]];
    vm_compute in Hc; try discriminate Hc; repeat split; reflexivity.
Qed.

Lemma digits_literal s : allChars isDigit s = true -> isLiteral s = true.
Proof.
  apply allChars_impl. intros c Hc.
  destruct (digit_facts c Hc) as [-> _]. reflexivity.
Qed.

Lemma digits_noChar c s :
  isDigit c = false -> allChars isDigit s = true -> noChar c s = true.
Proof.
  intros Hc. apply allChars_impl. intros a Ha.
  destruct (Ascii.eqb_spec a c) as [->|]; [congruence | reflexivity].
Qed.

Lemma literal_noChar c s :
  isTokenChar c = true -> isLiteral s = true -> noChar c s = true.
Proof.
  intros Hc. apply allChars_impl. intros a Ha.
  destruct (Ascii.eqb_spec a c) as [->|]; [|reflexivity].
  now rewrite Hc in Ha.
Qed.

Ltac eval_digits :=
  change (digitValue "0") with (Some 0) in *;
  change (digitValue "1") with (Some 1) in *;
  change (digitValue "2") with (Some 2) in *;
  change (digitValue "3") with (Some 3) in *;
  change (digitValue "4") with (Some 4) in *;
  change (digitValue "5") with (Some 5) in *;
  change (digitValue "6") with (Some 6) in *;
  change (digitValue "7") with (Some 7) in *;
  change (digitValue "8") with (Some 8) in *;
  change (digitValue "9") with (Some 9) in *;
  cbv beta iota in *.

Lemma string_of_uint_digits u :
  allChars isDigit (NilEmpty.string_of_uint u) = true.
Proof.
  induction u; cbn [NilEmpty.string_of_uint allChars]; [reflexivity | ..];
    unfold isDigit at 1; eval_digits; exact IHu.
Qed.

Lemma toString_literal n : isLiteral (JsNumber.toString n) = true.
Proof.
  destruct n as [z|]; [|reflexivity].
  unfold JsNumber.toString.
  destruct (Z.to_int z) as [u|u]; cbn [NilEmpty.string_of_int].
  - apply digits_literal, string_of_uint_digits.
  - change (isLiteral (NilEmpty.string_of_uint u) = true).
    apply digits_literal, string_of_uint_digits.
Qed.

Lemma toString_nonneg_digits z :
  0 <= z -> allChars isDigit (JsNumber.toString (Some z)) = true.
Proof.
  intros Hz. unfold JsNumber.toString.
  destruct z as [|p|p]; [reflexivity | | lia].
  simpl. apply string_of_uint_digits.
Qed.

Lemma fill_allChars P n f r :
  allChars P f = true -> allChars P r = true -> allChars P (fill n f r) = true.
Proof.
  intros Hf. revert r. induction n as [|n IH]; intros r Hr; [reflexivity|].
  simpl. destruct r as [|c r].
  - destruct f as [|c f]; [reflexivity|].
    simpl in Hf |- *. apply andb_prop in Hf as [Hc Hf'].
    rewrite Hc. simpl. apply IH. exact Hf'.
  - simpl in Hr |- *. apply andb_prop in Hr as [Hc Hr].
    rewrite Hc. simpl. apply IH. exact Hr.
Qed.

Lemma padStart_allChars P s n f :
  allChars P f = true -> allChars P s = true ->
  allChars P (padStart s n f) = true.
Proof.
  intros Hf Hs. unfold padStart.
  destruct (n <=? String.length s)%nat; [exact Hs|].
  rewrite allChars_app, Hs, fill_allChars; auto.
Qed.

(** A field between 0 and 99 is printed with exactly two digits. *)
Lemma padStart_twoDigits n :
  0 <= n <= 99 -> padStart (JsNumber.toString (Some n)) 2 "0" = twoDigits n.
Proof.
  intros Hn. apply String.eqb_eq.
  apply (Zrange_forall
           (fun n => String.eqb (padStart (JsNumber.toString (Some n)) 2 "0")
                                (twoDigits n)) 100);
    [vm_compute; reflexivity | lia].
Qed.

Lemma twoDigits_digits n :
  0 <= n <= 99 -> allChars isDigit (twoDigits n) = true.
Proof.
  intros Hn.
  apply (Zrange_forall (fun n => allChars isDigit (twoDigits n)) 100);
    [vm_compute; reflexivity | lia].
Qed.

Lemma parseInt_twoDigits n :
  0 <= n <= 99 -> parseInt (twoDigits n) = Some n.
Proof.
  intros Hn.
  assert (H : match parseInt (twoDigits n) with
              | Some v => v =? n
              | None => false
              end = true).
  { apply (Zrange_forall
             (fun n => match parseInt (twoDigits n) with
                       | Some v => v =? n
                       | None => false
                       end) 100);
      [vm_compute; reflexivity | lia]. }
  destruct (parseInt (twoDigits n)); [|discriminate].
  apply Z.eqb_eq in H. now subst.
Qed.

Lemma toString_fourDigits y :
  1000 <= y <= 9999 -> JsNumber.toString (Some y) = fourDigits y.
Proof.
  intros Hy. apply String.eqb_eq.
  pose proof
    (Zrange_forall
       (fun y => (y <? 1000)
                 || String.eqb (JsNumber.toString (Some y)) (fourDigits y))
       (Z.to_nat 10000) ltac:(vm_compute; reflexivity) y ltac:(lia)) as H.
  cbv beta in H. destruct (Z.ltb_spec y 1000); [lia | exact H].
Qed.

(** Reading a numeral gives back the number. *)
Lemma scanDigits_acc u p :
  scanDigits (NilEmpty.string_of_uint u) (Some (Z.pos p))
  = Some (Z.pos (Pos.of_uint_acc u p)).
Proof.
  revert p. induction u; intros p;
    cbn [NilEmpty.string_of_uint scanDigits Pos.of_uint_acc]; eval_digits;
    [reflexivity | ..]; rewrite <- IHu; do 2 f_equal; lia.
Qed.

Lemma scanDigits_zero u acc :
  acc = None \/ acc = Some 0 ->
  u <> Decimal.Nil \/ acc = Some 0 ->
  scanDigits (NilEmpty.string_of_uint u) acc = Some (Z.of_N (Pos.of_uint u)).
Proof.
  revert acc. induction u; intros acc Hacc Hu;
    cbn [NilEmpty.string_of_uint scanDigits Pos.of_uint]; eval_digits.
  - destruct Hu as [Hu | ->]; [congruence | reflexivity].
  - replace (10 * match acc with Some a => a | None => 0 end + 0) with 0
      by (destruct Hacc as [-> | ->]; reflexivity).
    apply IHu; auto.
  - replace (10 * match acc with Some a => a | None => 0 end + 1) with 1
      by (destruct Hacc as [-> | ->]; reflexivity).
    now rewrite scanDigits_acc.
  - replace (10 * match acc with Some a => a | None => 0 end + 2) with 2
      by (destruct Hacc as [-> | ->]; reflexivity).
    now rewrite scanDigits_acc.
  - replace (10 * match acc with Some a => a | None => 0 end + 3) with 3
      by (destruct Hacc as [-> | ->]; reflexivity).
    now rewrite scanDigits_acc.
  - replace (10 * match acc with Some a => a | None => 0 end + 4) with 4
      by (destruct Hacc as [-> | ->]; reflexivity).
    now rewrite scanDigits_acc.
  - replace (10 * match acc with Some a => a | None => 0 end + 5) with 5
      by (destruct Hacc as [-> | ->]; reflexivity).
    now rewrite scanDigits_acc.
  - replace (10 * match acc with Some a => a | None => 0 end + 6) with 6
      by (destruct Hacc as [-> | ->]; reflexivity).
    now rewrite scanDigits_acc.
  - replace (10 * match acc with Some a => a | None => 0 end + 7) with 7
      by (destruct Hacc as [-> | ->]; reflexivity).
    now rewrite scanDigits_acc.
  - replace (10 * match acc with Some a => a | None => 0 end + 8) with 8
      by (destruct Hacc as [-> | ->]; reflexivity).
    now rewrite scanDigits_acc.
  - replace (10 * match acc with Some a => a | None => 0 end + 9) with 9
      by (destruct Hacc as [-> | ->]; reflexivity).
    now rewrite scanDigits_acc.
Qed.

Lemma trimStart_digit c r :
  isDigit c = true -> trimStart (String c r) = String c r.
Proof.
  intros Hc. destruct (digit_facts c Hc) as (_ & Hw & _).
  simpl. now rewrite Hw.
Qed.

Lemma parseInt_digits c r :
  isDigit c = true -> parseInt (String c r) = scanDigits (String c r) None.
Proof.
  intros Hc. unfold parseInt. rewrite (trimStart_digit c r Hc).
  destruct (digit_facts c Hc) as (_ & _ & -> & ->). reflexivity.
Qed.

Lemma parseInt_toString z :
  0 <= z -> parseInt (JsNumber.toString (Some z)) = Some z.
Proof.
  intros Hz. destruct z as [|p|p]; [reflexivity | | lia].
  unfold JsNumber.toString. cbn [Z.to_int NilEmpty.string_of_int].
  pose proof (DecimalPos.Unsigned.of_to p) as Hp.
  pose proof (string_of_uint_digits (Pos.to_uint p)) as Hd.
  assert (Hnil : Pos.to_uint p <> Decimal.Nil).
  { intros E. rewrite E in Hp. discriminate. }
  destruct (NilEmpty.string_of_uint (Pos.to_uint p)) as [|c r] eqn:Hs.
  - destruct (Pos.to_uint p); try congruence; discriminate.
  - simpl in Hd. apply andb_prop in Hd as [Hc _].
    rewrite (parseInt_digits c r Hc), <- Hs.
    rewrite scanDigits_zero by auto. now rewrite Hp.
Qed.

(** ** Dates in a zone of constant offset *)

Lemma LocalTime_fixed off tv : Date.LocalTime (fixedZone off) tv = tv + off.
Proof. reflexivity. Qed.

Lemma UTC_fixed off tv : Date.UTC (fixedZone off) tv = tv - off.
Proof. reflexivity. Qed.

Lemma TimeClip_valid tv : validTime tv -> TimeClip tv = Some tv.
Proof.
  unfold validTime, TimeClip. intros H.
  destruct (Z.ltb_spec maxTime (Z.abs tv)); [lia | reflexivity].
Qed.

Lemma TimeClip_invalid tv : ~ validTime tv -> TimeClip tv = None.
Proof.
  unfold validTime, TimeClip. intros H.
  destruct (Z.ltb_spec maxTime (Z.abs tv)); [reflexivity | lia].
Qed.

Lemma create_fixed off y m dt :
  Date.create (fixedZone off) (Some y) (Some m) (Some dt)
  = TimeClip (MakeDate (MakeDay (MakeFullYear y) m dt) 0 - off).
Proof. reflexivity. Qed.

Lemma localField_fixed off f tv :
  Date.localField (fixedZone off) f (Some tv) = Some (f (tv + off)).
Proof. reflexivity. Qed.

(** Days of the years that a Date object reaches with every month. *)
Lemma DayFromYear_bounds y :
  -271820 <= y <= 275760 ->
  -99999744 <= DayFromYear y <= 99999744.
Proof.
  intros Hy.
  pose proof (DayFromYear_mono (-271820) y ltac:(lia)) as Hlo.
  pose proof (DayFromYear_mono y 275760 ltac:(lia)) as Hhi.
  change (DayFromYear (-271820)) with (-99999744) in Hlo.
  change (DayFromYear 275760) with 99999744 in Hhi. lia.
Qed.

Lemma keepsLocalTime_day tz tl : keepsLocalTime tz tl -> keepsLocalDay tz tl.
Proof. intros [Hv Hl]. split; [exact Hv | now rewrite Hl]. Qed.

Lemma fixedZone_keepsLocalTime off tl :
  validTime (tl - off) -> keepsLocalTime (fixedZone off) tl.
Proof.
  intros Hv. split; [exact Hv|].
  rewrite UTC_fixed, LocalTime_fixed. lia.
Qed.

(** The local midnights of the years that a Date reaches with every month
    exist in a zone of constant offset. *)
Lemma localMidnight_fixed off y m d :
  Z.abs off <= msPerDay ->
  -271820 <= MakeFullYear y <= 275759 -> 0 <= m - 1 <= 11 ->
  0 <= d <= daysInMonth (MakeFullYear y) m ->
  keepsLocalTime (fixedZone off) (localMidnight y m d).
Proof.
  intros Hoff Hy Hm Hd. apply fixedZone_keepsLocalTime.
  unfold localMidnight. rewrite MakeDay_month by assumption.
  set (yr := MakeFullYear y) in *.
  pose proof (DaysBeforeMonth_range yr (m - 1) Hm) as [Hb0 Hb1].
  replace (m - 1 + 1) with m in Hb1 by lia.
  assert (Hlo : -99999744 <= DayFromYear yr <= 99999744)
    by (apply DayFromYear_bounds; lia).
  assert (Hhi : -99999744 <= DayFromYear (yr + 1) <= 99999744)
    by (apply DayFromYear_bounds; lia).
  rewrite DayFromYear_succ in Hhi.
  unfold validTime, MakeDate, maxTime, msPerDay in *. lia.
Qed.

(** ** getDaysInMonth *)

Lemma DaysBeforeMonth_next y m :
  0 <= m <= 10 ->
  DaysBeforeMonth y (m + 1) = DaysBeforeMonth y m + daysInMonth y (m + 1).
Proof.
  intros Hm.
  assert (Hcases : m = 0 \/ m = 1 \/ m = 2 \/ m = 3 \/ m = 4 \/ m = 5
                   \/ m = 6 \/ m = 7 \/ m = 8 \/ m = 9 \/ m = 10) by lia.
  unfold DaysBeforeMonth, daysInMonth, daysInMonthOf. rewrite isLeapYear_DaysInYear.
  repeat (destruct Hcases as [Hcases | Hcases]); subst m;
    match goal with
    | |- context [?a + 1] =>
        let v := eval vm_compute in (a + 1) in change (a + 1) with v
    end;
    leap_cases y; lia.
Qed.

(** "Day 0 of the next month" is the last day of the month. *)
Lemma MakeDay_day0 y m :
  0 <= m <= 11 ->
  MakeDay y (m + 1) 0
  = DayFromYear y + DaysBeforeMonth y m + daysInMonth y (m + 1) - 1.
Proof.
  intros Hm. destruct (Z.eq_dec m 11) as [->|Hne].
  - unfold MakeDay. change (11 + 1) with 12.
    change (12 / 12) with 1. change (12 mod 12) with 0.
    rewrite DayFromYear_succ, isLeapYear_DaysInYear.
    unfold DaysBeforeMonth, daysInMonth, daysInMonthOf. rewrite isLeapYear_DaysInYear.
    leap_cases y; lia.
  - rewrite MakeDay_month by lia.
    rewrite DaysBeforeMonth_next by lia. lia.
Qed.

Lemma daysInMonth_pos y m : 0 <= m <= 11 -> 1 <= daysInMonth y (m + 1).
Proof.
  intros Hm. unfold daysInMonth, daysInMonthOf. month_cases m; leap_cases y; lia.
Qed.

Lemma isLeapYear_two_digit y :
  1 <= y <= 99 -> isLeapYear (1900 + y) = isLeapYear y.
Proof.
  intros Hy. unfold isLeapYear.
  repeat match goal with |- context [?a =? ?b] => destruct (Z.eqb_spec a b) end;
    cbn; try reflexivity; exfalso; div_lia.
Qed.

Lemma MakeFullYear_leap year :
  year <> 0 -> isLeapYear (MakeFullYear year) = isLeapYear year.
Proof.
  intros Hzero. unfold MakeFullYear.
  destruct (Z.leb_spec 0 year); destruct (Z.leb_spec year 99);
    cbn [andb]; try reflexivity.
  apply isLeapYear_two_digit. lia.
Qed.

Lemma getDaysInMonth_zone tz month year :
  1 <= month <= 12 ->
  keepsLocalDay tz (localMidnight year (month + 1) 0) ->
  getDaysInMonth tz (Some month) (Some year)
  = Some (daysInMonth (MakeFullYear year) month).
Proof.
  intros Hmonth [Hv Hday].
  unfold localMidnight in Hv, Hday.
  replace (month + 1 - 1) with month in Hv, Hday by lia.
  set (yr := MakeFullYear year) in *.
  set (m := month - 1).
  assert (Hm : 0 <= m <= 11) by (unfold m; lia).
  replace month with (m + 1) in * by (unfold m; lia).
  unfold getDaysInMonth, Date.create. fold yr.
  change (MakeTime 0 0 0 0) with 0.
  rewrite (TimeClip_valid _ Hv).
  unfold Date.getDate, Date.localField. cbn [option_map]. f_equal.
  pose proof (daysInMonth_pos yr m Hm) as Hpos.
  apply (fields_of_day yr m (daysInMonth yr (m + 1)) (MakeDay yr (m + 1) 0));
    auto; [lia | apply MakeDay_day0; assumption|].
  rewrite Hday. apply Day_MakeDate. unfold msPerDay. lia.
Qed.

(** C8, as amended.  For every month from 1 to 12 and every year other than
    0, when local midnight of the last day of the month ("day 0 of the next
    month") is in the range of Date and the zone reads it as an instant of
    that day, [getDaysInMonth month year] is the number of days of that month
    of that year.  It is so in every zone of constant offset for the years
    from -271820 to 275759; in particular February has 29 days in 2024 and 28
    in 2023. *)
Theorem getDaysInMonth_counts_days :
  (forall tz month year,
      1 <= month <= 12 -> year <> 0 ->
      keepsLocalDay tz (localMidnight year (month + 1) 0) ->
      getDaysInMonth tz (Some month) (Some year)
      = Some (daysInMonth year month))
  /\ (forall off,
         Z.abs off <= msPerDay ->
         (forall month year,
             1 <= month <= 12 -> -271820 <= year <= 275759 -> year <> 0 ->
             getDaysInMonth (fixedZone off) (Some month) (Some year)
             = Some (daysInMonth year month))
         /\ getDaysInMonth (fixedZone off) (Some 2) (Some 2024) = Some 29
         /\ getDaysInMonth (fixedZone off) (Some 2) (Some 2023) = Some 28).
Proof.
  assert (Hzone : forall tz month year,
             1 <= month <= 12 -> year <> 0 ->
             keepsLocalDay tz (localMidnight year (month + 1) 0) ->
             getDaysInMonth tz (Some month) (Some year)
             = Some (daysInMonth year month)).
  { intros tz month year Hmonth Hzero Hkeeps.
    rewrite getDaysInMonth_zone by assumption.
    unfold daysInMonth. now rewrite MakeFullYear_leap. }
  split; [exact Hzone|].
  intros off Hoff.
  assert (Hfixed : forall month year,
             1 <= month <= 12 -> -271820 <= year <= 275759 -> year <> 0 ->
             getDaysInMonth (fixedZone off) (Some month) (Some year)
             = Some (daysInMonth year month)).
  { intros month year Hmonth Hyear Hzero.
    apply Hzone; auto.
    assert (Hfull : -271820 <= MakeFullYear year <= 275759).
    { unfold MakeFullYear.
      destruct (Z.leb_spec 0 year); destruct (Z.leb_spec year 99);
        cbn [andb]; lia. }
    destruct (Z.eq_dec month 12) as [->|Hne].
    - (* day 0 of month 13: the last day of December *)
      apply keepsLocalTime_day, fixedZone_keepsLocalTime.
      unfold localMidnight. change (12 + 1 - 1) with 12.
      replace 12 with (11 + 1) at 1 by reflexivity.
      rewrite MakeDay_day0 by lia.
      set (yr := MakeFullYear year) in *.
      pose proof (DaysBeforeMonth_range yr 11 ltac:(lia)) as [Hb0 Hb1].
      pose proof (daysInMonth_pos yr 11 ltac:(lia)) as Hpos.
      assert (Hlo : -99999744 <= DayFromYear yr <= 99999744)
        by (apply DayFromYear_bounds; lia).
      assert (Hhi : -99999744 <= DayFromYear (yr + 1) <= 99999744)
        by (apply DayFromYear_bounds; lia).
      rewrite DayFromYear_succ in Hhi.
      unfold validTime, MakeDate, maxTime, msPerDay in *. lia.
    - apply keepsLocalTime_day, localMidnight_fixed; auto; try lia.
      pose proof (daysInMonth_pos (MakeFullYear year) month ltac:(lia)). lia. }
  split; [exact Hfixed|].
  split; [apply (Hfixed 2 2024) | apply (Hfixed 2 2023)]; lia.
Qed.

Lemma getDaysInMonth_counts_days_witness :
  Z.abs 3600000 <= msPerDay
  /\ (1 <= 2 <= 12 /\ -271820 <= 1900 <= 275759 /\ 1900 <> 0)
  /\ getDaysInMonth (fixedZone 3600000) (Some 2) (Some 1900) = Some 28
  /\ keepsLocalDay cetZone (localMidnight 2024 (3 + 1) 0)
  /\ getDaysInMonth cetZone (Some 3) (Some 2024) = Some 31.
Proof.
  assert (Hoff : Z.abs 3600000 <= msPerDay) by (unfold msPerDay; lia).
  assert (Hkeeps : keepsLocalDay cetZone (localMidnight 2024 (3 + 1) 0))
    by (split; [vm_compute; discriminate | reflexivity]).
  split; [exact Hoff|]. split; [lia|].
  split.
  - apply (proj1 (proj2 getDaysInMonth_counts_days 3600000 Hoff) 2 1900); lia.
  - split; [exact Hkeeps|].
    apply (proj1 getDaysInMonth_counts_days cetZone 3 2024); [lia | lia|].
    exact Hkeeps.
Defined.

(** C8 as stated fails: the year 300000 is beyond the range of Date, and the
    answer for its February, a month of 29 days, is NaN. *)
Lemma getDaysInMonth_out_of_range :
  getDaysInMonth utcZone (Some 2) (Some 300000) = None
  /\ daysInMonth 300000 2 = 29
  /\ getDaysInMonth utcZone (Some 2) (Some 300000)
     <> Some (daysInMonth 300000 2).
Proof.
  split; [reflexivity|]. split; [reflexivity|].
  intros H. vm_compute in H. discriminate H.
Qed.

(** The year 0 is read as 1900, which unlike it is not a leap year. *)
Lemma getDaysInMonth_year_zero :
  getDaysInMonth utcZone (Some 2) (Some 0) = Some 28
  /\ daysInMonth 0 2 = 29.
Proof. split; reflexivity. Qed.

(** ** timeAgo *)

(** The buckets are those of the specification, on the whole seconds of the
    difference as the code computes it. *)
Lemma timeAgo_phrase now tv :
  timeAgo now (Some tv)
  = timeAgoPhrase (JsNumber.roundDouble (now - tv) / 1000).
Proof.
  unfold timeAgo, timeAgoPhrase, Date.getTime.
  cbn [JsNumber.subTime JsNumber.lift2 JsNumber.floorDiv option_map
       JsNumber.ge JsNumber.gt JsNumber.strictEq].
  generalize (JsNumber.roundDouble (now - tv) / 1000) as s. intros s.
  replace (1 <=? s / 31536000) with (31536000 <=? s)
    by (destruct (Z.leb_spec 31536000 s), (Z.leb_spec 1 (s / 31536000));
        try reflexivity; exfalso; div_lia).
  replace (1 <=? s / 2592000) with (2592000 <=? s)
    by (destruct (Z.leb_spec 2592000 s), (Z.leb_spec 1 (s / 2592000));
        try reflexivity; exfalso; div_lia).
  replace (1 <=? s / 3600) with (3600 <=? s)
    by (destruct (Z.leb_spec 3600 s), (Z.leb_spec 1 (s / 3600));
        try reflexivity; exfalso; div_lia).
  replace (1 <=? s / 60) with (60 <=? s)
    by (destruct (Z.leb_spec 60 s), (Z.leb_spec 1 (s / 60));
        try reflexivity; exfalso; div_lia).
  replace (s / 1) with s by div_lia.
  reflexivity.
Qed.

(** Up to 2^53 milliseconds the difference is exact, and the seconds are the
    elapsed whole seconds. *)
Lemma timeAgo_phrase_exact now tv :
  Z.abs (now - tv) <= 2 ^ 53 ->
  timeAgo now (Some tv) = timeAgoPhrase ((now - tv) / 1000).
Proof.
  intros Hd. now rewrite timeAgo_phrase, roundDouble_exact.
Qed.

(** C4, as amended.  For an instant in the past, at most 2^53 milliseconds
    (some 285,616 years of 365 days) before the clock's, [timeAgo] returns
    the phrase of the first bucket that the elapsed whole seconds fall in;
    90 seconds give "1 minutes ago", 86400 give "Yesterday" and 172800 give
    "2 days ago". *)
Theorem timeAgo_buckets :
  forall now tv, tv <= now -> now - tv <= 2 ^ 53 ->
    let seconds := (now - tv) / 1000 in
    0 <= seconds
    /\ timeAgo now (Some tv) = timeAgoPhrase seconds
    /\ (seconds = 90 -> timeAgo now (Some tv) = "1 minutes ago")
    /\ (seconds = 86400 -> timeAgo now (Some tv) = "Yesterday")
    /\ (seconds = 172800 -> timeAgo now (Some tv) = "2 days ago").
Proof.
  intros now tv Hpast Hnear seconds.
  split; [unfold seconds; div_lia|].
  rewrite timeAgo_phrase_exact by lia. fold seconds.
  split; [reflexivity|].
  repeat split; intros ->; reflexivity.
Qed.

Lemma timeAgo_buckets_witness :
  1700000000000 - 90000 <= 1700000000000
  /\ 1700000000000 - (1700000000000 - 90000) <= 2 ^ 53
  /\ timeAgo 1700000000000 (Some (1700000000000 - 90000)) = "1 minutes ago".
Proof.
  assert (H1 : 1700000000000 - 90000 <= 1700000000000) by lia.
  assert (H2 : 1700000000000 - (1700000000000 - 90000) <= 2 ^ 53)
    by (vm_compute; discriminate).
  split; [exact H1|]. split; [exact H2|].
  apply (timeAgo_buckets 1700000000000 (1700000000000 - 90000) H1 H2).
  reflexivity.
Defined.

(** C4 as stated fails where the difference is rounded.  From the last
    instant of Date back to 367217711999999 ms before the epoch there are
    9007217711999 whole seconds, which make 285616 years of 365 days; the
    difference, 2^53 + 18457259007 ms, is odd and is rounded up to
    9007217712000000 ms, for which the code answers 285617 years. *)
Lemma timeAgo_rounded_difference :
  validTime 8640000000000000 /\ validTime (-367217711999999)
  /\ -367217711999999 <= 8640000000000000
  /\ (8640000000000000 - -367217711999999) / 1000 = 9007217711999
  /\ timeAgoPhrase ((8640000000000000 - -367217711999999) / 1000)
     = "285616 years ago"
  /\ timeAgo 8640000000000000 (Some (-367217711999999)) = "285617 years ago"
  /\ timeAgo 8640000000000000 (Some (-367217711999999))
     <> timeAgoPhrase ((8640000000000000 - -367217711999999) / 1000).
Proof.
  split; [vm_compute; discriminate|]. split; [vm_compute; discriminate|].
  split; [lia|]. do 3 (split; [vm_compute; reflexivity|]).
  intros H. vm_compute in H. discriminate H.
Qed.

(** ** addDays *)

Lemma addDays_local tz tv days :
  validTime tv ->
  addDays tz (Some tv) (Some days)
  = TimeClip (Date.UTC tz (Date.LocalTime tz tv + days * msPerDay)).
Proof.
  intros Hv. unfold addDays, Date.copy. rewrite (TimeClip_valid tv Hv).
  unfold Date.getDate, Date.localField, Date.setDate.
  cbn [option_map JsNumber.add JsNumber.lift2].
  set (tl := Date.LocalTime tz tv).
  rewrite MakeDay_shift, MakeDay_fields.
  do 2 f_equal.
  rewrite <- (MakeDate_Day tl) at 3. unfold MakeDate. lia.
Qed.

Lemma time_of_day_shift tl days :
  HourFromTime (tl + days * msPerDay) = HourFromTime tl
  /\ MinFromTime (tl + days * msPerDay) = MinFromTime tl
  /\ SecFromTime (tl + days * msPerDay) = SecFromTime tl
  /\ Day (tl + days * msPerDay) = Day tl + days.
Proof.
  unfold HourFromTime, MinFromTime, SecFromTime, Day,
    msPerHour, msPerMinute, msPerSecond, msPerDay.
  repeat split; div_lia.
Qed.

Lemma parseDate_parts tz s y m d rest :
  map JsString.parseInt (JsString.split s "-")
  = (Some y :: Some m :: Some d :: rest)%list ->
  parseDate tz s
  = TimeClip (Date.UTC tz (MakeDate (MakeDay (MakeFullYear y) (m - 1) d) 0)).
Proof.
  intros H. unfold parseDate.
  change (map (fun part => JsString.parseInt part))
    with (map JsString.parseInt).
  rewrite H. reflexivity.
Qed.

(** C7, as amended.  For a valid instant and an integer [days], when the
    local date-time [days] whole days later exists in the zone and is in the
    range of Date, [addDays] returns that instant: its calendar date is the
    input's advanced by [days] days, and its hours, minutes and seconds are
    the input's.  In a zone of constant offset one day after 2024-02-28 is
    2024-02-29 and one day after 2023-02-28 is 2023-03-01. *)
Theorem addDays_advances :
  (forall tz tv days,
      validTime tv ->
      let target := Date.LocalTime tz tv + days * msPerDay in
      keepsLocalTime tz target ->
      exists tv',
        addDays tz (Some tv) (Some days) = Some tv'
        /\ Date.LocalTime tz tv' = target
        /\ Day (Date.LocalTime tz tv') = Day (Date.LocalTime tz tv) + days
        /\ 1 <= DateFromTime (Date.LocalTime tz tv')
           <= daysInMonth (YearFromTime (Date.LocalTime tz tv'))
                          (MonthFromTime (Date.LocalTime tz tv') + 1)
        /\ Date.getHours tz (Some tv') = Date.getHours tz (Some tv)
        /\ Date.getMinutes tz (Some tv') = Date.getMinutes tz (Some tv)
        /\ Date.getSeconds tz (Some tv') = Date.getSeconds tz (Some tv))
  /\ (forall off, Z.abs off <= msPerDay ->
        let zone := fixedZone off in
        let leap := addDays zone (parseDate zone "2024-02-28") (Some 1) in
        let common := addDays zone (parseDate zone "2023-02-28") (Some 1) in
        (Date.getFullYear zone leap = Some 2024
         /\ Date.getMonth zone leap = Some 1
         /\ Date.getDate zone leap = Some 29)
        /\ (Date.getFullYear zone common = Some 2023
            /\ Date.getMonth zone common = Some 2
            /\ Date.getDate zone common = Some 1)).
Proof.
  split.
  - intros tz tv days Hv target [Hrange Hexists].
    exists (Date.UTC tz target).
    rewrite (addDays_local tz tv days Hv). fold target.
    rewrite (TimeClip_valid _ Hrange).
    split; [reflexivity|]. split; [exact Hexists|].
    unfold Date.getHours, Date.getMinutes, Date.getSeconds, Date.localField.
    cbn [option_map]. rewrite Hexists. unfold target.
    destruct (time_of_day_shift (Date.LocalTime tz tv) days)
      as (Hh & Hm & Hs & Hd).
    rewrite Hh, Hm, Hs, Hd.
    split; [reflexivity|]. split; [apply fields_of_time|].
    repeat split.
  - intros off Hoff zone leap common.
    unfold leap, common, zone.
    rewrite (parseDate_parts (fixedZone off) "2024-02-28" 2024 2 28 [])
      by reflexivity.
    rewrite (parseDate_parts (fixedZone off) "2023-02-28" 2023 2 28 [])
      by reflexivity.
    change (MakeDate (MakeDay (MakeFullYear 2024) (2 - 1) 28) 0)
      with 1709078400000.
    change (MakeDate (MakeDay (MakeFullYear 2023) (2 - 1) 28) 0)
      with 1677542400000.
    rewrite !UTC_fixed.
    unfold msPerDay in Hoff.
    rewrite !TimeClip_valid by (unfold validTime, maxTime; lia).
    rewrite !addDays_local by (unfold validTime, maxTime; lia).
    rewrite !LocalTime_fixed, !UTC_fixed.
    rewrite !TimeClip_valid by (unfold validTime, maxTime, msPerDay; lia).
    unfold Date.getFullYear, Date.getMonth, Date.getDate.
    rewrite !localField_fixed.
    replace (1709078400000 - off + off + 1 * msPerDay - off + off)
      with 1709164800000 by (unfold msPerDay; lia).
    replace (1677542400000 - off + off + 1 * msPerDay - off + off)
      with 1677628800000 by (unfold msPerDay; lia).
    repeat split.
Qed.

Lemma addDays_advances_witness :
  validTime 1709078400000
  /\ keepsLocalTime cetZone
       (Date.LocalTime cetZone 1709078400000 + 40 * msPerDay)
  /\ (exists tv',
         addDays cetZone (Some 1709078400000) (Some 40) = Some tv'
         /\ Date.LocalTime cetZone tv'
            = Date.LocalTime cetZone 1709078400000 + 40 * msPerDay)
  /\ Z.abs 19800000 <= msPerDay
  /\ Date.getDate (fixedZone 19800000)
       (addDays (fixedZone 19800000)
          (parseDate (fixedZone 19800000) "2024-02-28") (Some 1))
     = Some 29.
Proof.
  assert (H1 : validTime 1709078400000)
    by (unfold validTime, maxTime; lia).
  assert (H2 : keepsLocalTime cetZone
                 (Date.LocalTime cetZone 1709078400000 + 40 * msPerDay))
    by (split; [vm_compute; discriminate | reflexivity]).
  assert (H3 : Z.abs 19800000 <= msPerDay) by (unfold msPerDay; lia).
  split; [exact H1|]. split; [exact H2|]. split.
  - destruct (proj1 addDays_advances cetZone 1709078400000 40 H1 H2)
      as (tv' & Ha & Hl & _).
    exists tv'. split; assumption.
  - split; [exact H3|].
    apply (proj2 addDays_advances 19800000 H3).
Defined.

(** C7 as stated fails: a hundred million days after 28 February 2024 there
    is no Date, and the result is invalid. *)
Lemma addDays_out_of_range :
  parseDate utcZone "2024-02-28" = Some 1709078400000
  /\ validTime 1709078400000
  /\ addDays utcZone (Some 1709078400000) (Some 100000000) = None
  /\ Date.getHours utcZone
       (addDays utcZone (Some 1709078400000) (Some 100000000))
     <> Date.getHours utcZone (Some 1709078400000).
Proof.
  split; [reflexivity|].
  split; [unfold validTime, maxTime; lia|].
  split; [reflexivity|].
  intros H. vm_compute in H. discriminate H.
Qed.

(** Where clocks are put forward the time of day is not kept either: one day
    after 30 March 2024, 02:30, in [cetZone] it is 03:30. *)
Lemma addDays_skipped_hour :
  let date : Date.t := Some 1711762200000 in
  Date.getDate cetZone date = Some 30
  /\ Date.getHours cetZone date = Some 2
  /\ Date.getMinutes cetZone date = Some 30
  /\ Date.getDate cetZone (addDays cetZone date (Some 1)) = Some 31
  /\ Date.getHours cetZone (addDays cetZone date (Some 1)) = Some 3
  /\ Date.getMinutes cetZone (addDays cetZone date (Some 1)) = Some 30.
Proof. repeat split. Qed.

(** ** getDayOfYear and getWeekNumber *)

Lemma YearFromTime_upper tl :
  tl <= maxTime + msPerDay -> YearFromTime tl <= 275760.
Proof.
  intros Htl. unfold YearFromTime.
  pose proof (YearFromDay_spec (Day tl)) as [Hs _].
  destruct (Z.le_gt_cases (YearFromDay (Day tl)) 275760) as [|Hgt]; [assumption|].
  pose proof (DayFromYear_mono 275761 (YearFromDay (Day tl)) ltac:(lia)) as Hm.
  change (DayFromYear 275761) with 100000110 in Hm.
  unfold Day, maxTime, msPerDay in *. div_lia.
Qed.

Lemma MakeFullYear_outside y : y < 0 \/ 99 < y -> MakeFullYear y = y.
Proof.
  intros Hy. unfold MakeFullYear.
  destruct (Z.leb_spec 0 y), (Z.leb_spec y 99); cbn [andb]; lia.
Qed.

(** The months add up to the table of ECMA-262. *)
Lemma ordinalDay_DaysBeforeMonth y m d :
  0 <= m <= 11 -> ordinalDay y (m + 1) d = DaysBeforeMonth y m + d.
Proof.
  intros Hm. unfold ordinalDay, daysInMonth, DaysBeforeMonth.
  rewrite isLeapYear_DaysInYear.
  destruct (isLeapYear y); month_cases m; f_equal; vm_compute; reflexivity.
Qed.

(** Start of a year, in a zone of constant offset: [new Date(y, 0, dt)]. *)
Lemma create_year_start off y dt :
  Z.abs off <= msPerDay -> -271820 <= y <= 275760 -> (y < 0 \/ 99 < y) ->
  0 <= dt <= 1 ->
  Date.create (fixedZone off) (Some y) (Some 0) (Some dt)
  = Some ((DayFromYear y + dt - 1) * msPerDay - off).
Proof.
  intros Hoff Hy Hout Hdt. rewrite create_fixed, MakeFullYear_outside by assumption.
  rewrite MakeDay_month by lia.
  change (DaysBeforeMonth y 0) with 0.
  pose proof (DayFromYear_bounds y Hy) as Hb.
  unfold MakeDate. rewrite TimeClip_valid.
  - f_equal. lia.
  - unfold validTime, maxTime, msPerDay in *. lia.
Qed.

(** Outside the years 0..99, in a zone of constant offset, [getDayOfYear] is
    the 1-based ordinal of the day within its year. *)
Lemma getDayOfYear_ordinal off tv :
  Z.abs off <= msPerDay -> validTime tv ->
  let tl := tv + off in
  (YearFromTime tl < 0 \/ 99 < YearFromTime tl) ->
  -271820 <= YearFromTime tl ->
  getDayOfYear (fixedZone off) (Some tv)
  = Some (ordinalDay (YearFromTime tl) (MonthFromTime tl + 1) (DateFromTime tl)).
Proof.
  intros Hoff Hv tl Hout Hlow.
  assert (Hup : YearFromTime tl <= 275760).
  { apply YearFromTime_upper.
    unfold tl, validTime, maxTime, msPerDay in *. lia. }
  unfold getDayOfYear, Date.getFullYear. rewrite localField_fixed. fold tl.
  rewrite create_year_start by (auto; lia).
  unfold Date.getTime.
  cbn [JsNumber.subTime JsNumber.lift2 JsNumber.floorDiv option_map].
  pose proof (fields_of_time tl) as [Hdate Hday].
  pose proof (DaysBeforeMonth_range (YearFromTime tl) (MonthFromTime tl)
                (MonthFromTime_range tl)) as Hbefore.
  pose proof (DaysInYear_range (YearFromTime tl)) as Hdiy.
  rewrite roundDouble_exact
    by (change (2 ^ 53) with 9007199254740992;
        unfold Day in Hday; unfold tl in *; unfold msPerDay in *; div_lia).
  f_equal. change (1000 * 60 * 60 * 24) with msPerDay.
  rewrite ordinalDay_DaysBeforeMonth by apply MonthFromTime_range.
  unfold Day in Hday. unfold tl in *. unfold msPerDay in *. div_lia.
Qed.

Lemma getWeekNumber_formula off tv :
  Z.abs off <= msPerDay -> validTime tv ->
  let tl := tv + off in
  (YearFromTime tl < 0 \/ 99 < YearFromTime tl) ->
  -271820 <= YearFromTime tl ->
  getWeekNumber (fixedZone off) (Some tv)
  = JsNumber.ceilDiv
      (JsNumber.add
         (JsNumber.add (getDayOfYear (fixedZone off) (Some tv))
                       (Some (weekdayOfJan1 (YearFromTime tl))))
         (Some 1))
      7.
Proof.
  intros Hoff Hv tl Hout Hlow.
  assert (Hup : YearFromTime tl <= 275760).
  { apply YearFromTime_upper.
    unfold tl, validTime, maxTime, msPerDay in *. lia. }
  unfold getWeekNumber, Date.getFullYear, Date.getDay.
  rewrite localField_fixed. fold tl.
  rewrite create_year_start by (auto; lia).
  rewrite localField_fixed.
  do 4 f_equal. unfold weekdayOfJan1, TimeFromYear, WeekDay. do 2 f_equal.
  unfold Day, msPerDay. div_lia.
Qed.

(** On 31 December of a leap year whose 1 January is a Saturday the week
    number is 54. *)
Lemma getWeekNumber_54 off tv :
  Z.abs off <= msPerDay -> validTime tv ->
  let tl := tv + off in
  (YearFromTime tl < 0 \/ 99 < YearFromTime tl) ->
  -271820 <= YearFromTime tl ->
  isLeapYear (YearFromTime tl) = true ->
  weekdayOfJan1 (YearFromTime tl) = 6 ->
  MonthFromTime tl = 11 -> DateFromTime tl = 31 ->
  getDayOfYear (fixedZone off) (Some tv) = Some 366
  /\ getWeekNumber (fixedZone off) (Some tv) = Some 54.
Proof.
  intros Hoff Hv tl Hout Hlow Hleap Hsat Hmonth Hdate.
  assert (Hdoy : getDayOfYear (fixedZone off) (Some tv) = Some 366).
  { rewrite getDayOfYear_ordinal by assumption. fold tl.
    rewrite Hmonth, Hdate, ordinalDay_DaysBeforeMonth by lia.
    unfold DaysBeforeMonth. rewrite isLeapYear_DaysInYear, Hleap.
    reflexivity. }
  split; [exact Hdoy|].
  rewrite getWeekNumber_formula by assumption. fold tl.
  rewrite Hdoy, Hsat. reflexivity.
Qed.

(** C10.  [getWeekNumber] is not bounded by 53: 2000 is a leap year whose
    1 January is a Saturday, and on its 31 December the result is
    ceil ((366 + 6 + 1) / 7) = 54.  In a zone of constant offset it is 54 on
    31 December of every such year outside 0..99. *)
Theorem getWeekNumber_exceeds_53 :
  (exists tv,
      validTime tv
      /\ Date.getFullYear utcZone (Some tv) = Some 2000
      /\ Date.getMonth utcZone (Some tv) = Some 11
      /\ Date.getDate utcZone (Some tv) = Some 31
      /\ isLeapYear 2000 = true
      /\ weekdayOfJan1 2000 = 6
      /\ getDayOfYear utcZone (Some tv) = Some 366
      /\ getWeekNumber utcZone (Some tv) = Some 54
      /\ JsNumber.gt (getWeekNumber utcZone (Some tv)) 53 = true)
  /\ (forall off tv,
         Z.abs off <= msPerDay -> validTime tv ->
         let zone := fixedZone off in
         let year := YearFromTime (Date.LocalTime zone tv) in
         (year < 0 \/ 99 < year) -> -271820 <= year ->
         isLeapYear year = true -> weekdayOfJan1 year = 6 ->
         Date.getMonth zone (Some tv) = Some 11 ->
         Date.getDate zone (Some tv) = Some 31 ->
         getWeekNumber zone (Some tv) = Some 54).
Proof.
  split.
  - exists tv_2000_12_31.
    split; [unfold validTime, tv_2000_12_31, maxTime; lia|].
    repeat split.
  - intros off tv Hoff Hv zone year Hout Hlow Hleap Hsat Hmonth Hdate.
    change (Some (MonthFromTime (tv + off)) = Some 11) in Hmonth.
    change (Some (DateFromTime (tv + off)) = Some 31) in Hdate.
    injection Hmonth as Hmonth. injection Hdate as Hdate.
    exact (proj2 (getWeekNumber_54 off tv Hoff Hv Hout Hlow Hleap Hsat
                    Hmonth Hdate)).
Qed.

Lemma getWeekNumber_exceeds_53_witness :
  Z.abs (-28800000) <= msPerDay
  /\ validTime 978249600000
  /\ (99 < YearFromTime (Date.LocalTime (fixedZone (-28800000)) 978249600000)
      /\ isLeapYear
           (YearFromTime (Date.LocalTime (fixedZone (-28800000)) 978249600000))
         = true
      /\ weekdayOfJan1
           (YearFromTime (Date.LocalTime (fixedZone (-28800000)) 978249600000))
         = 6)
  /\ Date.getMonth (fixedZone (-28800000)) (Some 978249600000) = Some 11
  /\ Date.getDate (fixedZone (-28800000)) (Some 978249600000) = Some 31
  /\ getWeekNumber (fixedZone (-28800000)) (Some 978249600000) = Some 54.
Proof.
  assert (H0 : Z.abs (-28800000) <= msPerDay) by (unfold msPerDay; lia).
  assert (H1 : validTime 978249600000) by (unfold validTime, maxTime; lia).
  assert (H2 : 99 < YearFromTime
                      (Date.LocalTime (fixedZone (-28800000)) 978249600000))
    by reflexivity.
  split; [exact H0|]. split; [exact H1|].
  split; [split; [exact H2 | split; reflexivity]|].
  do 2 (split; [reflexivity|]).
  apply (proj2 getWeekNumber_exceeds_53 (-28800000) 978249600000 H0 H1);
    first [reflexivity | right; exact H2 | vm_compute; discriminate].
Defined.

(** C6: the code at two inputs on which it misses the ordinal day.
    1 January of the year 50 (UTC) is day 1 of its year, and the code counts
    from 31 December 1949; 1 June 2024 in [cetZone] is day 153, and the hour
    that summer time takes away makes the code return 152. *)
Theorem getDayOfYear_misses_ordinal :
  (let date : Date.t := Some tv_0050_01_01 in
   Date.getFullYear utcZone date = Some 50
   /\ Date.getMonth utcZone date = Some 0
   /\ Date.getDate utcZone date = Some 1
   /\ ordinalDay 50 1 1 = 1
   /\ getDayOfYear utcZone date = Some (-693959))
  /\ (let date := parseDate cetZone "2024-06-01" in
      Date.getFullYear cetZone date = Some 2024
      /\ Date.getMonth cetZone date = Some 5
      /\ Date.getDate cetZone date = Some 1
      /\ Date.getHours cetZone date = Some 0
      /\ ordinalDay 2024 6 1 = 153
      /\ getDayOfYear cetZone date = Some 152).
Proof. repeat split. Qed.

(** C5: the code at an input on which the weekday it adds is not that of
    1 January of the instant's year.  For 2 January of the year 50 (UTC) the
    code takes the weekday of 1 January 1950, a Sunday, while 1 January 50 is
    a Saturday; the result differs from the formula of the claim. *)
Theorem getWeekNumber_two_digit_year :
  let date : Date.t := Some (tv_0050_01_01 + msPerDay) in
  Date.getFullYear utcZone date = Some 50
  /\ Date.getMonth utcZone date = Some 0
  /\ Date.getDate utcZone date = Some 2
  /\ weekdayOfJan1 50 = 6
  /\ weekdayOfJan1 1950 = 0
  /\ getWeekNumber utcZone date = Some (-99136)
  /\ JsNumber.ceilDiv
       (JsNumber.add
          (JsNumber.add (getDayOfYear utcZone date) (Some (weekdayOfJan1 50)))
          (Some 1))
       7
     = Some (-99135)
  /\ getWeekNumber utcZone date
     <> JsNumber.ceilDiv
          (JsNumber.add
             (JsNumber.add (getDayOfYear utcZone date)
                           (Some (weekdayOfJan1 50)))
             (Some 1))
          7.
Proof.
  do 7 (split; [reflexivity|]).
  intros H. vm_compute in H. discriminate H.
Qed.

(** ** parseDate *)

Lemma parseDate_firstThree tz s :
  parseDate tz s
  = match firstThree (map JsString.parseInt (JsString.split s "-")) with
    | Some (y, m, d) => TimeClip (Date.UTC tz (localMidnight y m d))
    | None => None
    end.
Proof.
  unfold parseDate.
  change (map (fun part => JsString.parseInt part))
    with (map JsString.parseInt).
  destruct (map JsString.parseInt (JsString.split s "-"))
    as [|[y|] [|[m|] [|[d|] rest]]]; reflexivity.
Qed.

Lemma midnight_time_of_day day :
  HourFromTime (MakeDate day 0) = 0
  /\ MinFromTime (MakeDate day 0) = 0
  /\ SecFromTime (MakeDate day 0) = 0.
Proof.
  unfold HourFromTime, MinFromTime, SecFromTime, MakeDate,
    msPerHour, msPerMinute, msPerSecond, msPerDay.
  repeat split; div_lia.
Qed.

Lemma parseDate_fields off s y m d rest :
  Z.abs off <= msPerDay ->
  map JsString.parseInt (JsString.split s "-")
  = (Some y :: Some m :: Some d :: rest)%list ->
  100 <= y <= 275759 -> 1 <= m <= 12 -> 1 <= d <= daysInMonth y m ->
  parseDate (fixedZone off) s = Some (localMidnight y m d - off)
  /\ localMidnight y m d = MakeDate (MakeDay y (m - 1) d) 0
  /\ YearFromTime (localMidnight y m d) = y
  /\ MonthFromTime (localMidnight y m d) = m - 1
  /\ DateFromTime (localMidnight y m d) = d.
Proof.
  intros Hoff Hparts Hy Hm Hd.
  assert (Hlocal : localMidnight y m d = MakeDate (MakeDay y (m - 1) d) 0).
  { unfold localMidnight. now rewrite MakeFullYear_outside by lia. }
  replace m with (m - 1 + 1) in Hd by lia.
  pose proof (MakeDay_finds y (m - 1) d 0 ltac:(lia) Hd
                ltac:(unfold msPerDay; lia)) as Hfields.
  cbv zeta in Hfields. rewrite <- Hlocal in Hfields.
  split; [|split; [exact Hlocal | exact Hfields]].
  rewrite parseDate_firstThree, Hparts. cbn [firstThree].
  rewrite UTC_fixed. apply TimeClip_valid.
  rewrite Hlocal, MakeDay_month by lia.
  pose proof (DaysBeforeMonth_range y (m - 1) ltac:(lia)) as [Hb0 Hb1].
  pose proof (DayFromYear_bounds y ltac:(lia)) as Hlo.
  pose proof (DayFromYear_bounds (y + 1) ltac:(lia)) as Hhi.
  rewrite DayFromYear_succ in Hhi.
  unfold validTime, MakeDate, maxTime, msPerDay in *. lia.
Qed.

Lemma parseDate_fields_zone tz s y m d rest :
  map JsString.parseInt (JsString.split s "-")
  = (Some y :: Some m :: Some d :: rest)%list ->
  100 <= y -> 1 <= m <= 12 -> 1 <= d <= daysInMonth y m ->
  keepsLocalTime tz (localMidnight y m d) ->
  let date := parseDate tz s in
  date <> None
  /\ Date.getFullYear tz date = Some y
  /\ Date.getMonth tz date = Some (m - 1)
  /\ Date.getDate tz date = Some d
  /\ Date.getHours tz date = Some 0
  /\ Date.getMinutes tz date = Some 0
  /\ Date.getSeconds tz date = Some 0.
Proof.
  intros Hparts Hy Hm Hd [Hv Hl] date.
  assert (Hlocal : localMidnight y m d = MakeDate (MakeDay y (m - 1) d) 0).
  { unfold localMidnight. now rewrite MakeFullYear_outside by lia. }
  replace m with (m - 1 + 1) in Hd by lia.
  pose proof (MakeDay_finds y (m - 1) d 0 ltac:(lia) Hd
                ltac:(unfold msPerDay; lia)) as (HY & HM & HD).
  destruct (midnight_time_of_day (MakeDay y (m - 1) d)) as (Hh & Hmin & Hs).
  unfold date. rewrite parseDate_firstThree, Hparts. cbn [firstThree].
  rewrite (TimeClip_valid _ Hv).
  unfold Date.getFullYear, Date.getMonth, Date.getDate, Date.getHours,
    Date.getMinutes, Date.getSeconds, Date.localField.
  cbn [option_map]. rewrite Hl, Hlocal, HY, HM, HD, Hh, Hmin, Hs.
  repeat split. discriminate.
Qed.

(** C2, as amended.  [parseDate] splits its input on "-", reads each part
    with [parseInt] and takes the first three numbers as year, month
    (1-based) and day; further parts are ignored.  The result is invalid
    exactly when one of the first three parts is missing or has no leading
    integer, or when the date is outside the range of Date.  For a year of
    at least 100, a month from 1 to 12 and a day of that month, when local
    midnight of that date exists in the zone and is in the range of Date, the
    result is that local midnight; it is so in every zone of constant offset
    up to the year 275759.  [parseDate "2024-03-05"] has year 2024, month 3
    and day 5. *)
Theorem parseDate_first_three_parts :
  (forall tz s,
      let parts := map JsString.parseInt (JsString.split s "-") in
      parseDate tz s = None
      <-> firstThree parts = None
          \/ exists y m d,
               firstThree parts = Some (y, m, d)
               /\ ~ validTime (Date.UTC tz (localMidnight y m d)))
  /\ (forall tz s y m d rest,
         map JsString.parseInt (JsString.split s "-")
         = (Some y :: Some m :: Some d :: rest)%list ->
         100 <= y -> 1 <= m <= 12 -> 1 <= d <= daysInMonth y m ->
         keepsLocalTime tz (localMidnight y m d) ->
         let date := parseDate tz s in
         date <> None
         /\ Date.getFullYear tz date = Some y
         /\ Date.getMonth tz date = Some (m - 1)
         /\ Date.getDate tz date = Some d
         /\ Date.getHours tz date = Some 0
         /\ Date.getMinutes tz date = Some 0
         /\ Date.getSeconds tz date = Some 0)
  /\ (forall off y m d,
         Z.abs off <= msPerDay ->
         100 <= y <= 275759 -> 1 <= m <= 12 -> 1 <= d <= daysInMonth y m ->
         keepsLocalTime (fixedZone off) (localMidnight y m d))
  /\ (forall off,
         Z.abs off <= msPerDay ->
         let date := parseDate (fixedZone off) "2024-03-05" in
         Date.getFullYear (fixedZone off) date = Some 2024
         /\ JsNumber.add (Date.getMonth (fixedZone off) date) (Some 1) = Some 3
         /\ Date.getDate (fixedZone off) date = Some 5).
Proof.
  assert (Hfixed : forall off y m d,
             Z.abs off <= msPerDay ->
             100 <= y <= 275759 -> 1 <= m <= 12 -> 1 <= d <= daysInMonth y m ->
             keepsLocalTime (fixedZone off) (localMidnight y m d)).
  { intros off y m d Hoff Hy Hm Hd.
    apply localMidnight_fixed; auto;
      rewrite ?MakeFullYear_outside by lia; lia. }
  split; [|split; [exact parseDate_fields_zone | split; [exact Hfixed|]]].
  - intros tz s parts. rewrite parseDate_firstThree. fold parts.
    destruct (firstThree parts) as [[[y m] d]|].
    + split.
      * intros Hclip. right. exists y, m, d. split; [reflexivity|].
        intros Hv. rewrite (TimeClip_valid _ Hv) in Hclip. discriminate.
      * intros [Hnone | (y' & m' & d' & Heq & Hinv)]; [discriminate|].
        injection Heq as <- <- <-. now apply TimeClip_invalid.
    + split; [now left | reflexivity].
  - intros off Hoff date.
    assert (Hdim : 1 <= 5 <= daysInMonth 2024 3) by (cbv; split; discriminate).
    destruct (parseDate_fields_zone (fixedZone off) "2024-03-05" 2024 3 5 []
                ltac:(reflexivity) ltac:(lia) ltac:(lia) Hdim
                (Hfixed off 2024 3 5 Hoff ltac:(lia) ltac:(lia) Hdim))
      as (_ & HY & HM & HD & _).
    fold date in HY, HM, HD. rewrite HY, HM, HD. repeat split.
Qed.

Lemma parseDate_first_three_parts_witness :
  map JsString.parseInt (JsString.split "1999-12-31-23" "-")
  = [Some 1999; Some 12; Some 31; Some 23]%list
  /\ 100 <= 1999 /\ 1 <= 12 <= 12 /\ 1 <= 31 <= daysInMonth 1999 12
  /\ keepsLocalTime cetZone (localMidnight 1999 12 31)
  /\ Date.getDate cetZone (parseDate cetZone "1999-12-31-23") = Some 31.
Proof.
  assert (H1 : map JsString.parseInt (JsString.split "1999-12-31-23" "-")
               = [Some 1999; Some 12; Some 31; Some 23]%list) by reflexivity.
  assert (H2 : 100 <= 1999) by lia.
  assert (H3 : 1 <= 12 <= 12) by lia.
  assert (H4 : 1 <= 31 <= daysInMonth 1999 12) by (cbv; split; discriminate).
  assert (H5 : keepsLocalTime cetZone (localMidnight 1999 12 31))
    by (split; [vm_compute; discriminate | reflexivity]).
  repeat (split; [assumption|]).
  apply (proj1 (proj2 parseDate_first_three_parts)
           cetZone "1999-12-31-23" 1999 12 31 [Some 23]%list
           H1 H2 H3 H4 H5).
Defined.

(** C2 as stated fails: an input of four parts gives a valid date. *)
Lemma parseDate_four_parts :
  List.length (JsString.split "2024-03-05-07" "-") = 4%nat
  /\ parseDate utcZone "2024-03-05-07" = Some 1709596800000
  /\ parseDate utcZone "2024-03-05-07" <> None.
Proof. repeat split. discriminate. Qed.

(** Nor do three integer parts always give a valid date, and a year below
    100 is read as a year of the twentieth century. *)
Lemma parseDate_three_parts_invalid :
  map JsString.parseInt (JsString.split "300000-01-01" "-")
  = [Some 300000; Some 1; Some 1]%list
  /\ parseDate utcZone "300000-01-01" = None.
Proof. split; reflexivity. Qed.

Lemma parseDate_two_digit_year :
  Date.getFullYear utcZone (parseDate utcZone "50-06-01") = Some 1950.
Proof. reflexivity. Qed.

(** ** formatDate *)

Lemma formatDate_tokenText tz date format :
  formatDate tz date format
  = JsString.replace
      (JsString.replace
         (JsString.replace
            (JsString.replace
               (JsString.replace
                  (JsString.replace format "YYYY" (tokenText tz date "YYYY"))
                  "MM" (tokenText tz date "MM"))
               "DD" (tokenText tz date "DD"))
            "HH" (tokenText tz date "HH"))
         "mm" (tokenText tz date "mm"))
      "ss" (tokenText tz date "ss").
Proof. reflexivity. Qed.

Lemma noChar_app c a b : noChar c (a ++ b) = noChar c a && noChar c b.
Proof. apply allChars_app. Qed.

Lemma padded_literal n :
  isLiteral (JsString.padStart (JsNumber.toString n) 2 "0") = true.
Proof.
  apply padStart_allChars; [reflexivity | apply toString_literal].
Qed.

(** The replacement texts have no "$": [replace] inserts them as they are. *)
Lemma tokenText_no_dollar tz date token :
  In token tokens -> noChar "$" (tokenText tz date token) = true.
Proof.
  assert (Hnum : forall n, noChar "$" (JsNumber.toString n) = true).
  { intros [z|]; [|reflexivity]. unfold JsNumber.toString.
    destruct (Z.to_int z) as [u|u]; cbn [NilEmpty.string_of_int].
    - apply digits_noChar; [reflexivity | apply string_of_uint_digits].
    - change (noChar "$" (NilEmpty.string_of_uint u) = true).
      apply digits_noChar; [reflexivity | apply string_of_uint_digits]. }
  intros Hin. unfold tokens in Hin. cbn [In] in Hin.
  repeat (destruct Hin as [<- | Hin]); try contradiction;
    try (apply padStart_allChars; [reflexivity|]); apply Hnum.
Qed.

Lemma tokenText_literal tz date token :
  In token tokens -> isLiteral (tokenText tz date token) = true.
Proof.
  intros Hin. unfold tokens in Hin. cbn [In] in Hin.
  repeat (destruct Hin as [<- | Hin]);
    try (apply padded_literal); try (apply toString_literal); contradiction.
Qed.

(** No letter of a token in a string built from literal pieces and tokens. *)
Ltac solve_noChar :=
  rewrite ?noChar_app;
  repeat (apply andb_true_intro; split);
  first [ reflexivity
        | apply literal_noChar;
          [ reflexivity
          | first [ assumption
                  | apply tokenText_literal; cbn [In tokens]; tauto ] ] ].

(** One replacement, innermost first: the token is absent, or it follows a
    piece that cannot start it. *)
Ltac replace_step :=
  match goal with
  | |- context [JsString.replace ?s (String ?c ?p) ?r] =>
      first
        [ rewrite (replace_absent c p s r) by solve_noChar
        | match s with
          | ?a ++ ?rest =>
              rewrite (replace_skip c p a rest r) by solve_noChar;
              rewrite (replace_here (String c p))
          end ]
  end.

Lemma formatDate_token_twice tz date token a b c :
  In token tokens ->
  isLiteral a = true -> isLiteral b = true -> isLiteral c = true ->
  formatDate tz date (a ++ token ++ b ++ token ++ c)
  = a ++ tokenText tz date token ++ b ++ token ++ c.
Proof.
  intros Hin Ha Hb Hc. rewrite formatDate_tokenText.
  unfold tokens in Hin. cbn [In] in Hin.
  repeat (destruct Hin as [<- | Hin]); [.. | contradiction];
    repeat replace_step; reflexivity.
Qed.

Lemma formatDate_no_token tz date format :
  (forall token, In token tokens -> occurs token format = false) ->
  formatDate tz date format = format.
Proof.
  intros Hno. rewrite formatDate_tokenText.
  rewrite (replace_no_occurrence "YYYY" format)
    by (apply Hno; cbn [In tokens]; tauto).
  rewrite (replace_no_occurrence "MM" format)
    by (apply Hno; cbn [In tokens]; tauto).
  rewrite (replace_no_occurrence "DD" format)
    by (apply Hno; cbn [In tokens]; tauto).
  rewrite (replace_no_occurrence "HH" format)
    by (apply Hno; cbn [In tokens]; tauto).
  rewrite (replace_no_occurrence "mm" format)
    by (apply Hno; cbn [In tokens]; tauto).
  apply replace_no_occurrence, Hno. cbn [In tokens]. tauto.
Qed.

(** C9.  [formatDate] replaces the first occurrence of a token only: in a
    template with a token twice between literal text the second occurrence
    and the literal text stay as they are, and a template in which no token
    occurs is returned unchanged.  For every template the result is the
    template after six substitutions, one for each token, each of which puts
    the text of the field in the place of the first occurrence of its token
    and keeps the text before and after it, or keeps everything when the
    token does not occur; nothing else is such a result.  The texts of the
    fields have no "$", and with such a text [replace] is that
    substitution. *)
Theorem formatDate_first_occurrence_only :
  forall tz date,
    (forall token a b c,
        In token tokens ->
        isLiteral a = true -> isLiteral b = true -> isLiteral c = true ->
        formatDate tz date (a ++ token ++ b ++ token ++ c)
        = a ++ tokenText tz date token ++ b ++ token ++ c)
    /\ (forall format,
           (forall token, In token tokens -> occurs token format = false) ->
           formatDate tz date format = format)
    /\ (forall format result,
           substitutesEach (tokenText tz date) tokens format result
           <-> result = formatDate tz date format)
    /\ (forall token,
           In token tokens -> noChar "$" (tokenText tz date token) = true)
    /\ (forall token text s result,
           noChar "$" text = true ->
           (substitutesFirst token text s result
            <-> result = JsString.replace s token text)).
Proof.
  intros tz date. split; [|split; [|split; [|split]]].
  - intros token a b c. apply formatDate_token_twice.
  - apply formatDate_no_token.
  - intros format result. rewrite substitutesEach_fold.
    split; intros ->; reflexivity.
  - apply tokenText_no_dollar.
  - intros token text s result _. apply substitutesFirst_replace.
Qed.

Lemma formatDate_first_occurrence_only_witness :
  In "DD" tokens
  /\ isLiteral "on " = true /\ isLiteral " (" = true /\ isLiteral ")" = true
  /\ formatDate utcZone (Some 1709596800000) ("on " ++ "DD" ++ " (" ++ "DD" ++ ")")
     = "on 05 (DD)"
  /\ (forall token, In token tokens -> occurs token "Maybe today" = false)
  /\ formatDate utcZone (Some 1709596800000) "Maybe today" = "Maybe today"
  /\ formatDate utcZone (Some 1709596800000) "Mon DD" = "Mon 05"
  /\ substitutesEach (tokenText utcZone (Some 1709596800000)) tokens
       "Mon DD" "Mon 05"
  /\ In "MM" tokens
  /\ noChar "$" (tokenText utcZone (Some 1709596800000) "MM") = true
  /\ noChar "$" "03" = true
  /\ substitutesFirst "MM" "03" "mMMMM" "m03MM"
  /\ substitutesFirst "MM" "03" "Mon DD" "Mon DD".
Proof.
  pose proof (formatDate_first_occurrence_only utcZone (Some 1709596800000))
    as (Htwice & Hnone & Heach & Hdollar & Hreplace).
  assert (H0 : In "DD" tokens) by (cbn; tauto).
  assert (H1 : isLiteral "on " = true) by reflexivity.
  assert (H2 : isLiteral " (" = true) by reflexivity.
  assert (H3 : isLiteral ")" = true) by reflexivity.
  assert (H4 : forall token, In token tokens ->
                             occurs token "Maybe today" = false).
  { intros token Hin. unfold tokens in Hin. cbn [In] in Hin.
    repeat (destruct Hin as [<- | Hin]); try reflexivity; contradiction. }
  assert (H5 : In "MM" tokens) by (cbn; tauto).
  assert (H6 : noChar "$" "03" = true) by reflexivity.
  do 4 (split; [assumption|]).
  split; [exact (Htwice "DD" "on " " (" ")" H0 H1 H2 H3)|].
  split; [exact H4|].
  split; [exact (Hnone "Maybe today" H4)|].
  split; [reflexivity|].
  split; [apply (proj2 (Heach "Mon DD" "Mon 05")); reflexivity|].
  split; [exact H5|].
  split; [exact (Hdollar "MM" H5)|].
  split; [exact H6|].
  split.
  - apply (proj2 (Hreplace "MM" "03" "mMMMM" "m03MM" H6)). reflexivity.
  - apply (proj2 (Hreplace "MM" "03" "Mon DD" "Mon DD" H6)). reflexivity.
Defined.

(** The texts of a valid date: the year as a plain numeral, the other fields
    with two digits. *)
Lemma tokenText_valid tz tv :
  let tl := Date.LocalTime tz tv in
  tokenText tz (Some tv) "YYYY" = JsNumber.toString (Some (YearFromTime tl))
  /\ tokenText tz (Some tv) "MM" = twoDigits (MonthFromTime tl + 1)
  /\ tokenText tz (Some tv) "DD" = twoDigits (DateFromTime tl)
  /\ tokenText tz (Some tv) "HH" = twoDigits (HourFromTime tl)
  /\ tokenText tz (Some tv) "mm" = twoDigits (MinFromTime tl)
  /\ tokenText tz (Some tv) "ss" = twoDigits (SecFromTime tl).
Proof.
  intros tl.
  pose proof (MonthFromTime_range tl). pose proof (DateFromTime_range tl).
  pose proof (HourFromTime_range tl). pose proof (MinFromTime_range tl).
  pose proof (SecFromTime_range tl).
  repeat split; try reflexivity;
    (etransitivity; [|apply padStart_twoDigits; lia]); reflexivity.
Qed.

Lemma formatDate_fixed off tv format :
  formatDate (fixedZone off) (Some tv) format
  = formatDate utcZone (Some (tv + off)) format.
Proof.
  unfold formatDate, Date.getFullYear, Date.getMonth, Date.getDate,
    Date.getHours, Date.getMinutes, Date.getSeconds, utcZone.
  rewrite !localField_fixed, !Z.add_0_r. reflexivity.
Qed.

(** C3, as amended.  For a valid date and any template, [formatDate] puts in
    the place of MM, DD, HH, mm and ss the month, day, hours, minutes and
    seconds with exactly two digits, and in the place of YYYY the year as a
    plain decimal numeral, which has four digits when the year is between
    1000 and 9999.  On 2024-03-05 the template "YYYY-MM-DD" gives
    "2024-03-05". *)
Theorem formatDate_field_texts :
  (forall tz tv format,
      let tl := Date.LocalTime tz tv in
      formatDate tz (Some tv) format
      = JsString.replace
          (JsString.replace
             (JsString.replace
                (JsString.replace
                   (JsString.replace
                      (JsString.replace format "YYYY"
                         (JsNumber.toString (Some (YearFromTime tl))))
                      "MM" (twoDigits (MonthFromTime tl + 1)))
                   "DD" (twoDigits (DateFromTime tl)))
                "HH" (twoDigits (HourFromTime tl)))
             "mm" (twoDigits (MinFromTime tl)))
          "ss" (twoDigits (SecFromTime tl))
      /\ (1000 <= YearFromTime tl <= 9999 ->
          JsNumber.toString (Some (YearFromTime tl))
          = fourDigits (YearFromTime tl)))
  /\ (forall off,
         Z.abs off <= msPerDay ->
         formatDate (fixedZone off) (parseDate (fixedZone off) "2024-03-05")
           "YYYY-MM-DD"
         = "2024-03-05").
Proof.
  split.
  - intros tz tv format tl. split; [|apply toString_fourDigits].
    rewrite formatDate_tokenText.
    destruct (tokenText_valid tz tv) as (-> & -> & -> & -> & -> & ->).
    reflexivity.
  - intros off Hoff.
    destruct (parseDate_fields off "2024-03-05" 2024 3 5 [] Hoff
                ltac:(reflexivity) ltac:(lia) ltac:(lia)
                ltac:(cbv; split; discriminate)) as (-> & _).
    rewrite formatDate_fixed.
    replace (localMidnight 2024 3 5 - off + off) with (localMidnight 2024 3 5)
      by lia.
    reflexivity.
Qed.

Lemma formatDate_field_texts_witness :
  1000 <= YearFromTime (Date.LocalTime utcZone 1709596800000) <= 9999
  /\ JsNumber.toString
       (Some (YearFromTime (Date.LocalTime utcZone 1709596800000)))
     = fourDigits (YearFromTime (Date.LocalTime utcZone 1709596800000))
  /\ Z.abs 3600000 <= msPerDay
  /\ formatDate (fixedZone 3600000) (parseDate (fixedZone 3600000) "2024-03-05")
       "YYYY-MM-DD"
     = "2024-03-05".
Proof.
  assert (H : 1000 <= YearFromTime (Date.LocalTime utcZone 1709596800000)
              <= 9999) by (vm_compute; split; discriminate).
  assert (Hoff : Z.abs 3600000 <= msPerDay) by (unfold msPerDay; lia).
  split; [exact H|]. split.
  - exact (proj2 (proj1 formatDate_field_texts utcZone 1709596800000 "YYYY") H).
  - split; [exact Hoff|].
    exact (proj2 formatDate_field_texts 3600000 Hoff).
Defined.

(** C3 as stated fails: the year 999 is printed with three digits. *)
Lemma formatDate_year_not_padded :
  let date := parseDate utcZone "999-03-05" in
  Date.getFullYear utcZone date = Some 999
  /\ formatDate utcZone date "YYYY" = "999"
  /\ String.length (formatDate utcZone date "YYYY") <> 4%nat.
Proof.
  split; [reflexivity|]. split; [reflexivity|].
  intros H. vm_compute in H. discriminate H.
Qed.

(** ** Formatting and parsing back *)

Lemma formatDate_ymd tz date :
  formatDate tz date "YYYY-MM-DD"
  = tokenText tz date "YYYY" ++ "-" ++ tokenText tz date "MM" ++ "-"
    ++ tokenText tz date "DD".
Proof.
  rewrite formatDate_tokenText.
  set (ys := tokenText tz date "YYYY").
  set (ms := tokenText tz date "MM").
  set (ds := tokenText tz date "DD").
  assert (Hys : isLiteral ys = true)
    by (apply tokenText_literal; cbn [In tokens]; tauto).
  assert (Hms : isLiteral ms = true)
    by (apply tokenText_literal; cbn [In tokens]; tauto).
  assert (Hds : isLiteral ds = true)
    by (apply tokenText_literal; cbn [In tokens]; tauto).
  change (JsString.replace "YYYY-MM-DD" "YYYY" ys) with (ys ++ "-" ++ "MM" ++ "-DD").
  rewrite <- (app_assoc ys "-" ("MM" ++ "-DD")).
  replace_step.
  change "-DD" with ("-" ++ "DD" ++ "").
  rewrite <- (app_assoc ms "-" ("DD" ++ "")).
  rewrite <- (app_assoc (ys ++ "-") (ms ++ "-") ("DD" ++ "")).
  repeat replace_step.
  now rewrite !app_assoc, app_nil_r.
Qed.

Lemma split_ymd ys ms ds :
  allChars isDigit ys = true -> allChars isDigit ms = true ->
  allChars isDigit ds = true ->
  JsString.split (ys ++ "-" ++ ms ++ "-" ++ ds) "-" = [ys; ms; ds]%list.
Proof.
  intros Hys Hms Hds.
  change (ys ++ "-" ++ ms ++ "-" ++ ds)
    with (ys ++ String "-" (ms ++ String "-" ds)).
  rewrite split_app by (apply digits_noChar; [reflexivity | assumption]).
  rewrite split_app by (apply digits_noChar; [reflexivity | assumption]).
  rewrite split_single by (apply digits_noChar; [reflexivity | assumption]).
  reflexivity.
Qed.

Lemma format_parse_format_zone tz tv :
  let tl := Date.LocalTime tz tv in
  100 <= YearFromTime tl ->
  keepsLocalDay tz (MakeDate (Day tl) 0) ->
  formatDate tz (parseDate tz (formatDate tz (Some tv) "YYYY-MM-DD"))
    "YYYY-MM-DD"
  = formatDate tz (Some tv) "YYYY-MM-DD".
Proof.
  intros tl Hyear [Hv Hday].
  set (y := YearFromTime tl) in *.
  set (m := MonthFromTime tl). set (d := DateFromTime tl).
  pose proof (MonthFromTime_range tl) as Hm. fold m in Hm.
  pose proof (DateFromTime_range tl) as Hd31. fold d in Hd31.
  assert (Hfmt : formatDate tz (Some tv) "YYYY-MM-DD"
                 = JsNumber.toString (Some y) ++ "-" ++ twoDigits (m + 1)
                   ++ "-" ++ twoDigits d).
  { rewrite formatDate_ymd.
    destruct (tokenText_valid tz tv) as (-> & -> & -> & _).
    reflexivity. }
  assert (Hparts : map JsString.parseInt
                     (JsString.split (formatDate tz (Some tv) "YYYY-MM-DD") "-")
                   = [Some y; Some (m + 1); Some d]%list).
  { rewrite Hfmt, split_ymd.
    - cbn [map]. rewrite parseInt_toString by lia.
      rewrite !parseInt_twoDigits by lia. reflexivity.
    - apply toString_nonneg_digits. lia.
    - apply twoDigits_digits. lia.
    - apply twoDigits_digits. lia. }
  assert (Hlocal : localMidnight y (m + 1) d = MakeDate (Day tl) 0).
  { unfold localMidnight. rewrite MakeFullYear_outside by lia.
    replace (m + 1 - 1) with m by lia.
    unfold y, m, d. now rewrite MakeDay_fields. }
  assert (Hparse : parseDate tz (formatDate tz (Some tv) "YYYY-MM-DD")
                   = Some (Date.UTC tz (MakeDate (Day tl) 0))).
  { rewrite parseDate_firstThree, Hparts. cbn [firstThree].
    rewrite Hlocal. now apply TimeClip_valid. }
  rewrite Hparse, !formatDate_ymd.
  destruct (tokenText_valid tz tv) as (-> & -> & -> & _).
  destruct (tokenText_valid tz (Date.UTC tz (MakeDate (Day tl) 0)))
    as (-> & -> & -> & _).
  fold tl.
  destruct (same_day_same_date
              (Date.LocalTime tz (Date.UTC tz (MakeDate (Day tl) 0))) tl)
    as (-> & -> & ->); [|reflexivity].
  rewrite Hday. apply Day_MakeDate. unfold msPerDay. lia.
Qed.

(** C1, as amended.  For a valid instant whose hours, minutes and seconds
    are zero and whose year is at least 100, when local midnight of its day
    is in the range of Date and the zone reads it as an instant of that day,
    formatting with "YYYY-MM-DD", parsing the result and formatting again
    gives the same text.  It is so in every zone of constant offset. *)
Theorem format_parse_format :
  (forall tz tv,
      validTime tv ->
      let date : Date.t := Some tv in
      Date.getHours tz date = Some 0 ->
      Date.getMinutes tz date = Some 0 ->
      Date.getSeconds tz date = Some 0 ->
      JsNumber.ge (Date.getFullYear tz date) 100 = true ->
      keepsLocalDay tz (MakeDate (Day (Date.LocalTime tz tv)) 0) ->
      formatDate tz (parseDate tz (formatDate tz date "YYYY-MM-DD"))
        "YYYY-MM-DD"
      = formatDate tz date "YYYY-MM-DD")
  /\ (forall off tv,
         Z.abs off <= msPerDay -> validTime tv ->
         let zone := fixedZone off in
         let date : Date.t := Some tv in
         Date.getHours zone date = Some 0 ->
         Date.getMinutes zone date = Some 0 ->
         Date.getSeconds zone date = Some 0 ->
         JsNumber.ge (Date.getFullYear zone date) 100 = true ->
         formatDate zone (parseDate zone (formatDate zone date "YYYY-MM-DD"))
           "YYYY-MM-DD"
         = formatDate zone date "YYYY-MM-DD").
Proof.
  split.
  - intros tz tv _ date _ _ _ Hyear Hkeeps.
    apply format_parse_format_zone; [|exact Hkeeps].
    unfold date, Date.getFullYear, Date.localField in Hyear.
    cbn [option_map JsNumber.ge] in Hyear. now apply Z.leb_le in Hyear.
  - intros off tv Hoff Hv zone date _ _ _ Hyear.
    unfold date, zone, Date.getFullYear in *.
    rewrite localField_fixed in Hyear.
    cbn [JsNumber.ge] in Hyear. apply Z.leb_le in Hyear.
    apply format_parse_format_zone; rewrite LocalTime_fixed; [exact Hyear|].
    apply keepsLocalTime_day, fixedZone_keepsLocalTime.
    set (tl := tv + off) in *.
    pose proof (TimeWithinDay_range tl) as Hw.
    pose proof (MakeDate_Day tl) as Hsplit.
    pose proof (DayFromYear_mono 100 (YearFromTime tl) Hyear) as Hmono.
    change (DayFromYear 100) with (-683003) in Hmono.
    pose proof (fields_of_time tl) as [Hd Hday].
    pose proof (DaysBeforeMonth_range (YearFromTime tl) (MonthFromTime tl)
                  (MonthFromTime_range tl)) as [Hb0 _].
    unfold tl, validTime, MakeDate, maxTime, msPerDay in *. lia.
Qed.

Lemma format_parse_format_witness :
  validTime 1717192800000
  /\ Date.getHours cetZone (Some 1717192800000) = Some 0
  /\ Date.getMinutes cetZone (Some 1717192800000) = Some 0
  /\ Date.getSeconds cetZone (Some 1717192800000) = Some 0
  /\ JsNumber.ge (Date.getFullYear cetZone (Some 1717192800000)) 100 = true
  /\ keepsLocalDay cetZone
       (MakeDate (Day (Date.LocalTime cetZone 1717192800000)) 0)
  /\ formatDate cetZone
       (parseDate cetZone
          (formatDate cetZone (Some 1717192800000) "YYYY-MM-DD"))
       "YYYY-MM-DD"
     = formatDate cetZone (Some 1717192800000) "YYYY-MM-DD"
  /\ Z.abs (-18000000) <= msPerDay
  /\ formatDate (fixedZone (-18000000))
       (parseDate (fixedZone (-18000000))
          (formatDate (fixedZone (-18000000)) (Some 1717218000000)
             "YYYY-MM-DD"))
       "YYYY-MM-DD"
     = formatDate (fixedZone (-18000000)) (Some 1717218000000) "YYYY-MM-DD".
Proof.
  assert (H1 : validTime 1717192800000) by (unfold validTime, maxTime; lia).
  assert (H2 : keepsLocalDay cetZone
                 (MakeDate (Day (Date.LocalTime cetZone 1717192800000)) 0))
    by (split; [vm_compute; discriminate | reflexivity]).
  assert (H3 : Z.abs (-18000000) <= msPerDay) by (unfold msPerDay; lia).
  assert (H4 : validTime 1717218000000) by (unfold validTime, maxTime; lia).
  split; [exact H1|]. do 4 (split; [reflexivity|]). split; [exact H2|].
  split.
  - apply (proj1 format_parse_format cetZone 1717192800000 H1);
      first [reflexivity | exact H2].
  - split; [exact H3|].
    apply (proj2 format_parse_format (-18000000) 1717218000000 H3 H4);
      reflexivity.
Defined.

(** C1 as stated fails: 1 January of the year 50 is printed "50-01-01", which
    is parsed as a day of 1950. *)
Lemma format_parse_format_year_50 :
  let date : Date.t := Some tv_0050_01_01 in
  validTime tv_0050_01_01
  /\ Date.getHours utcZone date = Some 0
  /\ Date.getMinutes utcZone date = Some 0
  /\ Date.getSeconds utcZone date = Some 0
  /\ formatDate utcZone date "YYYY-MM-DD" = "50-01-01"
  /\ formatDate utcZone (parseDate utcZone (formatDate utcZone date "YYYY-MM-DD"))
       "YYYY-MM-DD"
     = "1950-01-01"
  /\ formatDate utcZone (parseDate utcZone (formatDate utcZone date "YYYY-MM-DD"))
       "YYYY-MM-DD"
     <> formatDate utcZone date "YYYY-MM-DD".
Proof.
  split; [unfold validTime, tv_0050_01_01, maxTime; lia|].
  do 5 (split; [reflexivity|]).
  intros H. vm_compute in H. discriminate H.
Qed.

(** Before the year 0 the numeral starts with "-", the separator, and the
    text parses to an invalid date. *)
Lemma format_parse_format_negative_year :
  let date : Date.t := Some (-62198755200000) in
  formatDate utcZone date "YYYY-MM-DD" = "-1-01-01"
  /\ parseDate utcZone "-1-01-01" = None
  /\ formatDate utcZone None "YYYY-MM-DD" = "NaN-NaN-NaN".
Proof. repeat split. Qed.

(** * Further properties of the library *)

(** * Further properties of the library *)

(** ** isToday *)

Lemma same_date_same_day t1 t2 :
  YearFromTime t1 = YearFromTime t2 ->
  MonthFromTime t1 = MonthFromTime t2 ->
  DateFromTime t1 = DateFromTime t2 ->
  Day t1 = Day t2.
Proof.
  intros Hy Hm Hd.
  destruct (fields_of_time t1) as [_ H1].
  destruct (fields_of_time t2) as [_ H2].
  rewrite H1, H2, Hy, Hm, Hd. reflexivity.
Qed.

Lemma isToday_valid tz now tv :
  isToday tz now (Some tv) = true
  <-> Day (Date.LocalTime tz tv) = Day (Date.LocalTime tz now).
Proof.
  unfold isToday, Date.getDate, Date.getMonth, Date.getFullYear,
    Date.localField; cbn [option_map JsNumber.strictEq].
  split.
  - intros H. apply andb_prop in H as [H Hy]. apply andb_prop in H as [Hd Hm].
    apply Z.eqb_eq in Hy, Hm, Hd. now apply same_date_same_day.
  - intros Hday. destruct (same_day_same_date _ _ Hday) as (-> & -> & ->).
    now rewrite !Z.eqb_refl.
Qed.

(** X1.  [isToday] is true exactly for a valid date on the local day of the
    clock, whatever its time of day; an invalid date is never today, and the
    instant of the clock always is. *)
Theorem isToday_same_local_day :
  forall tz now,
    (forall date,
        isToday tz now date = true
        <-> exists tv,
              date = Some tv
              /\ Day (Date.LocalTime tz tv) = Day (Date.LocalTime tz now))
    /\ isToday tz now None = false
    /\ isToday tz now (Some now) = true.
Proof.
  intros tz now. split; [|split].
  - intros [tv|].
    + rewrite isToday_valid. split.
      * intros H. exists tv. now split.
      * intros (tv' & Heq & H). now injection Heq as <-.
    + split; [discriminate|]. intros (tv & Heq & _). discriminate.
  - reflexivity.
  - now apply isToday_valid.
Qed.

(** X2.  Of the days around the clock's only the clock's own is today:
    [isToday] of [addDays now days] holds exactly for [days = 0], when the
    local time [days] days from now exists in the zone and is in range. *)
Theorem isToday_addDays :
  forall tz now days,
    validTime now ->
    keepsLocalTime tz (Date.LocalTime tz now + days * msPerDay) ->
    (isToday tz now (addDays tz (Some now) (Some days)) = true <-> days = 0).
Proof.
  intros tz now days Hv [Hrange Hlocal].
  rewrite (addDays_local tz now days Hv), (TimeClip_valid _ Hrange).
  rewrite isToday_valid, Hlocal.
  destruct (time_of_day_shift (Date.LocalTime tz now) days) as (_ & _ & _ & ->).
  lia.
Qed.

Lemma isToday_addDays_witness :
  validTime 1717192800000
  /\ keepsLocalTime cetZone
       (Date.LocalTime cetZone 1717192800000 + (-2) * msPerDay)
  /\ isToday cetZone 1717192800000
       (addDays cetZone (Some 1717192800000) (Some (-2))) = false.
Proof.
  assert (H1 : validTime 1717192800000) by (unfold validTime, maxTime; lia).
  assert (H2 : keepsLocalTime cetZone
                 (Date.LocalTime cetZone 1717192800000 + (-2) * msPerDay))
    by (split; [vm_compute; discriminate | reflexivity]).
  split; [exact H1|]. split; [exact H2|].
  destruct (isToday cetZone 1717192800000
              (addDays cetZone (Some 1717192800000) (Some (-2)))) eqn:E;
    [|reflexivity].
  apply (proj1 (isToday_addDays cetZone 1717192800000 (-2) H1 H2)) in E.
  discriminate E.
Defined.

(** ** addDays, step by step *)

(** X3.  [addDays] gives an invalid date for an invalid date and for a NaN
    number of days; for a valid date and an integer number of days it gives
    an invalid date exactly when the shifted local time, read back in the
    zone, is out of the range of Date. *)
Theorem addDays_invalid :
  forall tz,
    (forall days, addDays tz None days = None)
    /\ (forall date, addDays tz date None = None)
    /\ (forall tv days,
           validTime tv ->
           (addDays tz (Some tv) (Some days) = None
            <-> ~ validTime
                  (Date.UTC tz (Date.LocalTime tz tv + days * msPerDay)))).
Proof.
  intros tz. split; [|split].
  - intros days. reflexivity.
  - intros [tv|]; [|reflexivity].
    unfold addDays, Date.copy. destruct (TimeClip tv); reflexivity.
  - intros tv days Hv. rewrite (addDays_local tz tv days Hv). split.
    + intros Hclip Hvalid. rewrite (TimeClip_valid _ Hvalid) in Hclip.
      discriminate.
    + apply TimeClip_invalid.
Qed.

Lemma addDays_invalid_witness :
  validTime 1709078400000
  /\ ~ validTime (Date.UTC utcZone
                    (Date.LocalTime utcZone 1709078400000
                     + 100000000 * msPerDay))
  /\ addDays utcZone (Some 1709078400000) (Some 100000000) = None.
Proof.
  assert (H1 : validTime 1709078400000) by (unfold validTime, maxTime; lia).
  assert (H2 : ~ validTime (Date.UTC utcZone
                              (Date.LocalTime utcZone 1709078400000
                               + 100000000 * msPerDay)))
    by (intros H; vm_compute in H; apply H; reflexivity).
  split; [exact H1|]. split; [exact H2|].
  apply (proj2 (proj2 (proj2 (addDays_invalid utcZone))
                  1709078400000 100000000 H1) H2).
Defined.

Lemma addDays_twice tz tv a b :
  validTime tv ->
  keepsLocalTime tz (Date.LocalTime tz tv + a * msPerDay) ->
  addDays tz (addDays tz (Some tv) (Some a)) (Some b)
  = addDays tz (Some tv) (Some (a + b)).
Proof.
  intros Hv [Hrange Hlocal].
  rewrite (addDays_local tz tv a Hv), (TimeClip_valid _ Hrange).
  rewrite (addDays_local tz _ b Hrange), Hlocal.
  rewrite (addDays_local tz tv (a + b) Hv).
  do 2 f_equal. lia.
Qed.

(** X4.  Adding days in two steps is adding their sum, when the local time
    after the first step exists in the zone and is in range; in a zone of
    constant offset it is enough that the date after the first step is
    valid. *)
Theorem addDays_compose :
  (forall tz tv a b,
      validTime tv ->
      keepsLocalTime tz (Date.LocalTime tz tv + a * msPerDay) ->
      addDays tz (addDays tz (Some tv) (Some a)) (Some b)
      = addDays tz (Some tv) (Some (a + b)))
  /\ (forall off tv a b,
         validTime tv -> validTime (tv + a * msPerDay) ->
         addDays (fixedZone off) (addDays (fixedZone off) (Some tv) (Some a))
           (Some b)
         = addDays (fixedZone off) (Some tv) (Some (a + b))).
Proof.
  split; [exact addDays_twice|].
  intros off tv a b Hv Ha. apply addDays_twice; [exact Hv|].
  apply fixedZone_keepsLocalTime. rewrite LocalTime_fixed.
  replace (tv + off + a * msPerDay - off) with (tv + a * msPerDay) by lia.
  exact Ha.
Qed.

Lemma addDays_compose_witness :
  validTime 1709078400000
  /\ keepsLocalTime cetZone (Date.LocalTime cetZone 1709078400000 + 40 * msPerDay)
  /\ addDays cetZone (addDays cetZone (Some 1709078400000) (Some 40)) (Some (-7))
     = addDays cetZone (Some 1709078400000) (Some (40 + -7))
  /\ validTime (1709078400000 + 40 * msPerDay)
  /\ addDays (fixedZone 19800000)
       (addDays (fixedZone 19800000) (Some 1709078400000) (Some 40)) (Some (-7))
     = addDays (fixedZone 19800000) (Some 1709078400000) (Some (40 + -7)).
Proof.
  assert (H1 : validTime 1709078400000) by (unfold validTime, maxTime; lia).
  assert (H2 : keepsLocalTime cetZone
                 (Date.LocalTime cetZone 1709078400000 + 40 * msPerDay))
    by (split; [vm_compute; discriminate | reflexivity]).
  assert (H3 : validTime (1709078400000 + 40 * msPerDay))
    by (unfold validTime, maxTime, msPerDay; lia).
  split; [exact H1|]. split; [exact H2|]. split.
  - exact (proj1 addDays_compose cetZone 1709078400000 40 (-7) H1 H2).
  - split; [exact H3|].
    exact (proj2 addDays_compose 19800000 1709078400000 40 (-7) H1 H3).
Defined.

(** X5.  In a zone of constant offset going [days] days forth and back gives
    the date again, when the date in between is valid; in particular adding
    0 days changes nothing.  Where clocks are put back it can fail: in
    [cetZone] adding 0 days to the second 02:30 of 27 October 2024 gives the
    first one, an hour earlier. *)
Theorem addDays_back :
  (forall off tv days,
      validTime tv -> validTime (tv + days * msPerDay) ->
      addDays (fixedZone off) (addDays (fixedZone off) (Some tv) (Some days))
        (Some (- days))
      = Some tv)
  /\ (forall off tv,
         validTime tv -> addDays (fixedZone off) (Some tv) (Some 0) = Some tv)
  /\ addDays cetZone (Some 1729992600000) (Some 0) = Some 1729989000000.
Proof.
  assert (Hzero : forall off tv,
             validTime tv ->
             addDays (fixedZone off) (Some tv) (Some 0) = Some tv).
  { intros off tv Hv. rewrite (addDays_local _ tv 0 Hv).
    rewrite LocalTime_fixed, UTC_fixed.
    replace (tv + off + 0 * msPerDay - off) with tv by lia.
    now apply TimeClip_valid. }
  split; [|split; [exact Hzero | reflexivity]].
  intros off tv days Hv Hd.
  rewrite addDays_twice; [|exact Hv|].
  - replace (days + - days) with 0 by lia. now apply Hzero.
  - apply fixedZone_keepsLocalTime. rewrite LocalTime_fixed.
    replace (tv + off + days * msPerDay - off) with (tv + days * msPerDay)
      by lia.
    exact Hd.
Qed.

Lemma addDays_back_witness :
  validTime 1709078400000
  /\ validTime (1709078400000 + 366 * msPerDay)
  /\ addDays (fixedZone (-18000000))
       (addDays (fixedZone (-18000000)) (Some 1709078400000) (Some 366))
       (Some (- 366))
     = Some 1709078400000.
Proof.
  assert (H1 : validTime 1709078400000) by (unfold validTime, maxTime; lia).
  assert (H2 : validTime (1709078400000 + 366 * msPerDay))
    by (unfold validTime, maxTime, msPerDay; lia).
  split; [exact H1|]. split; [exact H2|].
  exact (proj1 addDays_back (-18000000) 1709078400000 366 H1 H2).
Defined.

(** ** timeAgo: the phrases *)

Lemma string_length_app (a b : string) :
  String.length (a ++ b) = (String.length a + String.length b)%nat.
Proof. induction a as [|x a IH]; simpl; [reflexivity | now rewrite IH]. Qed.

(** The bucket that the seconds of the difference fall in, and its phrase. *)
Lemma timeAgo_cases now tv :
  let s := JsNumber.roundDouble (now - tv) / 1000 in
  let text (n : Z) := JsNumber.toString (Some n) in
  (31536000 <= s /\ timeAgo now (Some tv) = text (s / 31536000) ++ " years ago")
  \/ (2592000 <= s < 31536000
      /\ timeAgo now (Some tv) = text (s / 2592000) ++ " months ago")
  \/ (86400 <= s < 172800 /\ timeAgo now (Some tv) = "Yesterday")
  \/ (172800 <= s < 2592000
      /\ timeAgo now (Some tv) = text (s / 86400) ++ " days ago")
  \/ (3600 <= s < 86400
      /\ timeAgo now (Some tv) = text (s / 3600) ++ " hours ago")
  \/ (60 <= s < 3600
      /\ timeAgo now (Some tv) = text (s / 60) ++ " minutes ago")
  \/ (s < 60 /\ timeAgo now (Some tv) = text s ++ " seconds ago").
Proof.
  intros s text. rewrite timeAgo_phrase. fold s. unfold timeAgoPhrase, text.
  destruct (Z.leb_spec 31536000 s); [left; split; [lia | reflexivity]|].
  destruct (Z.leb_spec 2592000 s);
    [right; left; split; [lia | reflexivity]|].
  destruct (Z.eqb_spec (s / 86400) 1);
    [right; right; left; split; [div_lia | reflexivity]|].
  destruct (Z.ltb_spec 1 (s / 86400));
    [right; right; right; left; split; [div_lia | reflexivity]|].
  assert (s < 86400) by div_lia.
  destruct (Z.leb_spec 3600 s);
    [right; right; right; right; left; split; [lia | reflexivity]|].
  destruct (Z.leb_spec 60 s);
    [right; right; right; right; right; left; split; [lia | reflexivity]|].
  right; right; right; right; right; right. split; [lia | reflexivity].
Qed.

(** X6.  For an instant after the clock's, at most 2^53 milliseconds after
    it, none of the buckets applies: the result is the negative number of
    seconds, with its sign, before " seconds ago". *)
Theorem timeAgo_future :
  forall now tv,
    now < tv -> tv - now <= 2 ^ 53 ->
    let seconds := (now - tv) / 1000 in
    seconds < 0
    /\ timeAgo now (Some tv)
       = JsNumber.toString (Some seconds) ++ " seconds ago"
    /\ exists digits, JsNumber.toString (Some seconds) = String "-" digits.
Proof.
  intros now tv Hfuture Hnear seconds.
  assert (Hneg : seconds < 0) by (unfold seconds; div_lia).
  split; [exact Hneg|]. split.
  - destruct (timeAgo_cases now tv) as [H|[H|[H|[H|[H|[H|H]]]]]];
      cbv zeta in H; rewrite roundDouble_exact in H by lia;
      fold seconds in H; destruct H as [Hs Ht]; try lia. exact Ht.
  - destruct seconds as [|p|p]; try lia.
    exists (NilEmpty.string_of_uint (Pos.to_uint p)). reflexivity.
Qed.

Lemma timeAgo_future_witness :
  1700000000000 < 1700000005000
  /\ 1700000005000 - 1700000000000 <= 2 ^ 53
  /\ timeAgo 1700000000000 (Some 1700000005000) = "-5 seconds ago".
Proof.
  assert (H : 1700000000000 < 1700000005000) by lia.
  assert (H' : 1700000005000 - 1700000000000 <= 2 ^ 53)
    by (vm_compute; discriminate).
  split; [exact H|]. split; [exact H'|].
  exact (proj1 (proj2 (timeAgo_future 1700000000000 1700000005000 H H'))).
Defined.

(** X7.  For an instant in the past the count in the phrase is bounded by
    its bucket: at least 1 year; 1 to 12 months; 2 to 29 days; 1 to 23 hours;
    1 to 59 minutes; 0 to 59 seconds. *)
Theorem timeAgo_counts :
  forall now tv,
    tv <= now ->
    let result := timeAgo now (Some tv) in
    let text (n : Z) := JsNumber.toString (Some n) in
    result = "Yesterday"
    \/ exists n,
         (1 <= n /\ result = text n ++ " years ago")
         \/ (1 <= n <= 12 /\ result = text n ++ " months ago")
         \/ (2 <= n <= 29 /\ result = text n ++ " days ago")
         \/ (1 <= n <= 23 /\ result = text n ++ " hours ago")
         \/ (1 <= n <= 59 /\ result = text n ++ " minutes ago")
         \/ (0 <= n <= 59 /\ result = text n ++ " seconds ago").
Proof.
  intros now tv Hpast result text. unfold result, text.
  pose proof (timeAgo_cases now tv) as H. cbv zeta in H.
  assert (Hs : 0 <= JsNumber.roundDouble (now - tv) / 1000).
  { destruct (roundDouble_cases (now - tv)) as [-> | [[_ Hr] | [Hd _]]];
      change (2 ^ 53) with 9007199254740992 in *; div_lia. }
  set (s := JsNumber.roundDouble (now - tv) / 1000) in *.
  destruct H as [H|[H|[H|[H|[H|[H|H]]]]]]; destruct H as [Hb ->].
  - right. exists (s / 31536000). left.
    split; [div_lia | reflexivity].
  - right. exists (s / 2592000). right; left.
    split; [div_lia | reflexivity].
  - now left.
  - right. exists (s / 86400). right; right; left.
    split; [div_lia | reflexivity].
  - right. exists (s / 3600). right; right; right; left.
    split; [div_lia | reflexivity].
  - right. exists (s / 60). right; right; right; right; left.
    split; [div_lia | reflexivity].
  - right. exists s. right; right; right; right; right.
    split; [lia | reflexivity].
Qed.

Lemma timeAgo_counts_witness :
  1700000000000 - 31535999000 <= 1700000000000
  /\ timeAgo 1700000000000 (Some (1700000000000 - 31535999000))
     = "12 months ago".
Proof.
  assert (H : 1700000000000 - 31535999000 <= 1700000000000) by lia.
  split; [exact H|].
  destruct (timeAgo_counts 1700000000000 (1700000000000 - 31535999000) H)
    as [Hy | _]; reflexivity.
Defined.

Lemma literal_then_space x rest :
  isLiteral x = true -> x ++ String " " rest <> "Yesterday".
Proof.
  intros Hx H. destruct x as [|c x]; [discriminate H|].
  injection H as Hc _. subst c. discriminate Hx.
Qed.

(** X8.  "Yesterday" is the answer exactly for a valid instant between one
    and two whole days before the clock's. *)
Theorem timeAgo_yesterday :
  forall now date,
    timeAgo now date = "Yesterday"
    <-> exists tv,
          date = Some tv /\ 86400 <= (now - tv) / 1000 < 172800.
Proof.
  intros now [tv|].
  - assert (Hsame : 86400 <= JsNumber.roundDouble (now - tv) / 1000 < 172800
                    <-> 86400 <= (now - tv) / 1000 < 172800).
    { destruct (roundDouble_cases (now - tv)) as [-> | [[Hd Hr] | [Hd Hr]]];
        [reflexivity | |];
        change (2 ^ 53) with 9007199254740992 in *; split; intros Hb; div_lia. }
    split.
    + intros Hy. exists tv. split; [reflexivity|]. apply Hsame.
      destruct (timeAgo_cases now tv) as [H|[H|[H|[H|[H|[H|H]]]]]];
        cbv zeta in H; destruct H as [Hb Ht]; try exact Hb;
        rewrite Ht in Hy;
        exfalso; revert Hy; apply literal_then_space, toString_literal.
    + intros (tv' & Heq & Hb). injection Heq as <-. apply Hsame in Hb.
      destruct (timeAgo_cases now tv) as [H|[H|[H|[H|[H|[H|H]]]]]];
        cbv zeta in H; destruct H as [Hb' Ht]; try lia. exact Ht.
  - split; [discriminate|]. intros (tv & Heq & _). discriminate.
Qed.

Lemma toString_nonempty n : JsNumber.toString n <> "".
Proof.
  destruct n as [[|p|p]|]; try discriminate.
  intros H. pose proof (parseInt_toString (Z.pos p) ltac:(lia)) as Hp.
  rewrite H in Hp. discriminate Hp.
Qed.

Lemma toString_one n : 0 <= n -> JsNumber.toString (Some n) = "1" -> n = 1.
Proof.
  intros Hn H. pose proof (parseInt_toString n Hn) as Hp.
  rewrite H in Hp. now injection Hp.
Qed.

(** X9.  The documentation gives '1 day ago' as an example, but neither
    "1 day ago" nor "1 days ago" is ever returned: one whole day is
    "Yesterday" and the days bucket starts at 2. *)
Theorem timeAgo_never_one_day :
  forall now date,
    timeAgo now date <> "1 day ago" /\ timeAgo now date <> "1 days ago".
Proof.
  intros now [tv|]; [|split; discriminate].
  assert (Hlen : forall n unit,
             (10 <= String.length unit)%nat ->
             JsNumber.toString (Some n) ++ unit <> "1 day ago"
             /\ JsNumber.toString (Some n) ++ unit <> "1 days ago").
  { intros n unit Hu.
    pose proof (toString_nonempty (Some n)) as Hne.
    split; intros H; apply (f_equal String.length) in H;
      rewrite string_length_app in H;
      destruct (JsNumber.toString (Some n)); try congruence;
      simpl in H; lia. }
  pose proof (timeAgo_cases now tv) as H. cbv zeta in H.
  set (s := JsNumber.roundDouble (now - tv) / 1000) in *.
  destruct H as [H|[H|[H|[H|[H|[H|H]]]]]]; destruct H as [Hb ->];
    try (apply Hlen; simpl; lia); try (split; discriminate).
  pose proof (toString_nonempty (Some (s / 86400))) as Hne.
  split; intros H.
  - apply (f_equal String.length) in H. rewrite string_length_app in H.
    destruct (JsNumber.toString (Some (s / 86400)));
      try congruence; simpl in H; lia.
  - assert (Hone : JsNumber.toString (Some (s / 86400)) = "1").
    { destruct (JsNumber.toString (Some (s / 86400)))
        as [|c [|c' r]]; try congruence.
      - now injection H as ->.
      - apply (f_equal String.length) in H. simpl in H.
        rewrite string_length_app in H. simpl in H. lia. }
    apply toString_one in Hone; div_lia.
Qed.

(** ** formatDate on templates cut into pieces *)

Lemma token_cases (P : string -> Prop) :
  P "YYYY" -> P "MM" -> P "DD" -> P "HH" -> P "mm" -> P "ss" ->
  forall token, In token tokens -> P token.
Proof.
  intros H1 H2 H3 H4 H5 H6 token Hin. unfold tokens in Hin. cbn [In] in Hin.
  repeat (destruct Hin as [<- | Hin]); try assumption; contradiction.
Qed.

Lemma existsb_tokens token :
  existsb (String.eqb token) tokens = true -> In token tokens.
Proof.
  intros H. apply existsb_exists in H as (t & Hin & Heq).
  apply String.eqb_eq in Heq. now subst.
Qed.

(** A token piece cannot start another token. *)
Lemma other_token_noChar t token :
  In t tokens -> In token tokens -> t <> token ->
  exists c p, token = String c p /\ isTokenChar c = true /\ noChar c t = true.
Proof.
  intros Ht Htoken Hne. unfold tokens in Ht, Htoken. cbn [In] in Ht, Htoken.
  repeat (destruct Ht as [<- | Ht]); try contradiction;
    repeat (destruct Htoken as [<- | Htoken]); try contradiction;
    try (exfalso; apply Hne; reflexivity);
    eexists; eexists; repeat split.
Qed.

Lemma token_head token :
  In token tokens -> exists c p, token = String c p /\ isTokenChar c = true.
Proof.
  intros Hin. unfold tokens in Hin. cbn [In] in Hin.
  repeat (destruct Hin as [<- | Hin]); try contradiction;
    eexists; eexists; split; reflexivity.
Qed.

Lemma render_Lit s rest : render (Lit s :: rest) = s ++ render rest.
Proof. reflexivity. Qed.

Lemma render_Tok t rest : render (Tok t :: rest) = t ++ render rest.
Proof. reflexivity. Qed.

(** One replacement, on pieces. *)
Lemma replace_render token text segments :
  In token tokens -> wellFormed segments = true ->
  replace (render segments) token text
  = render (substFirst token text segments).
Proof.
  intros Htoken. induction segments as [|[s|t] rest IH]; intros Hwf.
  - destruct (token_head token Htoken) as (c & p & -> & _). reflexivity.
  - cbn [wellFormed forallb] in Hwf. apply andb_prop in Hwf as [Hs Hrest].
    destruct (token_head token Htoken) as (c & p & Heq & Hc).
    cbn [substFirst]. rewrite !render_Lit, <- (IH Hrest), Heq.
    apply replace_skip, literal_noChar; assumption.
  - cbn [wellFormed forallb] in Hwf. apply andb_prop in Hwf as [Ht Hrest].
    apply existsb_tokens in Ht. cbn [substFirst].
    destruct (String.eqb_spec t token) as [->|Hne].
    + rewrite render_Tok, render_Lit. apply replace_here.
    + destruct (other_token_noChar t token Ht Htoken Hne)
        as (c & p & Heq & _ & Hno).
      rewrite !render_Tok, <- (IH Hrest), Heq.
      apply replace_skip, Hno.
Qed.

Lemma substFirst_wellFormed token text segments :
  isLiteral text = true -> wellFormed segments = true ->
  wellFormed (substFirst token text segments) = true.
Proof.
  intros Htext. induction segments as [|[s|t] rest IH]; intros Hwf;
    [reflexivity | |];
    cbn [wellFormed forallb substFirst] in *;
    apply andb_prop in Hwf as [Hhead Hrest].
  - rewrite Hhead. apply IH, Hrest.
  - destruct (String.eqb t token); cbn [forallb].
    + rewrite Htext. exact Hrest.
    + rewrite Hhead. apply IH, Hrest.
Qed.

(** [formatDate] on pieces: six replacements of a first piece. *)
Lemma formatDate_render tz date segments :
  wellFormed segments = true ->
  formatDate tz date (render segments)
  = render (fold_left
              (fun segs token => substFirst token (tokenText tz date token) segs)
              tokens segments).
Proof.
  intros Hwf. rewrite formatDate_tokenText. cbn [fold_left tokens].
  assert (Hin : forall token, In token tokens ->
                              isLiteral (tokenText tz date token) = true)
    by (intros; now apply tokenText_literal).
  assert (H1 : In "YYYY" tokens) by (cbn; tauto).
  assert (H2 : In "MM" tokens) by (cbn; tauto).
  assert (H3 : In "DD" tokens) by (cbn; tauto).
  assert (H4 : In "HH" tokens) by (cbn; tauto).
  assert (H5 : In "mm" tokens) by (cbn; tauto).
  assert (H6 : In "ss" tokens) by (cbn; tauto).
  rewrite (replace_render "YYYY") by assumption.
  pose proof (substFirst_wellFormed "YYYY" _ _ (Hin _ H1) Hwf) as W1.
  rewrite (replace_render "MM") by assumption.
  pose proof (substFirst_wellFormed "MM" _ _ (Hin _ H2) W1) as W2.
  rewrite (replace_render "DD") by assumption.
  pose proof (substFirst_wellFormed "DD" _ _ (Hin _ H3) W2) as W3.
  rewrite (replace_render "HH") by assumption.
  pose proof (substFirst_wellFormed "HH" _ _ (Hin _ H4) W3) as W4.
  rewrite (replace_render "mm") by assumption.
  pose proof (substFirst_wellFormed "mm" _ _ (Hin _ H5) W4) as W5.
  rewrite (replace_render "ss") by assumption.
  reflexivity.
Qed.

Lemma substFirst_absent token text segments :
  ~ In token (tokensOf segments) -> substFirst token text segments = segments.
Proof.
  induction segments as [|[s|t] rest IH]; intros Hno; [reflexivity | |];
    cbn [substFirst tokensOf flat_map] in *.
  - f_equal. apply IH. exact Hno.
  - destruct (String.eqb_spec t token) as [->|Hne].
    + exfalso. apply Hno. now left.
    + f_equal. apply IH. intros Hin. apply Hno. now right.
Qed.

Lemma substFirst_tokensOf token text segments t :
  In t (tokensOf (substFirst token text segments)) -> In t (tokensOf segments).
Proof.
  induction segments as [|[s|t'] rest IH]; [auto | |];
    cbn [substFirst tokensOf flat_map].
  - exact IH.
  - destruct (String.eqb t' token); cbn [tokensOf flat_map app In].
    + intros H. now right.
    + intros [H|H]; [now left | right; now apply IH].
Qed.

(** When no token comes twice, the six replacements replace every token. *)
Lemma substFirst_all text segments :
  wellFormed segments = true -> NoDup (tokensOf segments) ->
  fold_left (fun segs token => substFirst token (text token) segs)
            tokens segments
  = substAll text segments.
Proof.
  induction segments as [|[s|t] rest IH]; intros Hwf Hnd; [reflexivity | |];
    cbn [wellFormed forallb] in Hwf; apply andb_prop in Hwf as [Hhead Hrest].
  - specialize (IH Hrest Hnd). cbn [fold_left tokens substFirst] in *.
    cbn [substAll map]. fold (substAll text rest). now rewrite <- IH.
  - cbn [tokensOf flat_map app] in Hnd. fold (tokensOf rest) in Hnd.
    apply NoDup_cons_iff in Hnd as [Hnot Hnd].
    specialize (IH Hrest Hnd). apply existsb_tokens in Hhead.
    cbn [substAll map]. fold (substAll text rest). rewrite <- IH.
    assert (Habs : forall txt segs,
               (forall u, In u (tokensOf segs) -> In u (tokensOf rest)) ->
               substFirst t txt segs = segs).
    { intros txt segs Hsub. apply substFirst_absent.
      intros Hin. apply Hnot, Hsub, Hin. }
    clear IH Hrest Hnd. revert t Hhead Hnot Habs.
    apply (token_cases
             (fun t => ~ In t (tokensOf rest) ->
                       (forall txt segs,
                           (forall u, In u (tokensOf segs) ->
                                      In u (tokensOf rest)) ->
                           substFirst t txt segs = segs) ->
                       fold_left
                         (fun segs token => substFirst token (text token) segs)
                         tokens (Tok t :: rest)
                       = (Lit (text t)
                          :: fold_left
                               (fun segs token =>
                                  substFirst token (text token) segs)
                               tokens rest)%list));
      intros Hnot Habs; cbn [fold_left tokens substFirst String.eqb Ascii.eqb
                               Bool.eqb andb];
      rewrite ?Habs; try reflexivity;
      intros u Hu; repeat (apply substFirst_tokensOf in Hu); exact Hu.
Qed.

(** X10.  On a template made of literal text and tokens, in any order,
    [formatDate] replaces the first piece of each token by the text of its
    field and keeps every other piece; when no token comes twice, every
    token is replaced. *)
Theorem formatDate_pieces :
  forall tz date segments,
    wellFormed segments = true ->
    formatDate tz date (render segments)
    = render (fold_left
                (fun segs token =>
                   substFirst token (tokenText tz date token) segs)
                tokens segments)
    /\ (NoDup (tokensOf segments) ->
        formatDate tz date (render segments)
        = render (substAll (tokenText tz date) segments)).
Proof.
  intros tz date segments Hwf. split.
  - now apply formatDate_render.
  - intros Hnd. rewrite formatDate_render by assumption.
    now rewrite substFirst_all.
Qed.

Lemma formatDate_pieces_witness :
  let pieces := [Tok "DD"; Lit "/"; Tok "MM"; Lit "/"; Tok "YYYY"; Lit " at ";
                 Tok "HH"; Lit ":"; Tok "mm"; Lit " ("; Tok "DD"; Lit ")"]%list in
  wellFormed pieces = true
  /\ render pieces = "DD/MM/YYYY at HH:mm (DD)"
  /\ formatDate utcZone (Some 1709631000000) (render pieces)
     = "05/03/2024 at 09:30 (DD)".
Proof.
  intros pieces.
  assert (H : wellFormed pieces = true) by reflexivity.
  split; [exact H|]. split; [reflexivity|].
  exact (proj1 (formatDate_pieces utcZone (Some 1709631000000) pieces H)).
Defined.

(** X11.  For an invalid date every field is NaN: in a template where no
    token comes twice each token is replaced by "NaN", unpadded, and nothing
    is thrown. *)
Theorem formatDate_invalid :
  forall tz segments,
    wellFormed segments = true -> NoDup (tokensOf segments) ->
    formatDate tz None (render segments)
    = render (substAll (fun _ => "NaN") segments).
Proof.
  intros tz segments Hwf Hnd.
  rewrite formatDate_render, substFirst_all by assumption.
  f_equal. clear Hnd. induction segments as [|[s|t] rest IH]; [reflexivity | |];
    cbn [wellFormed forallb] in Hwf; apply andb_prop in Hwf as [Hhead Hrest];
    cbn [substAll map]; fold (substAll (tokenText tz None) rest);
    fold (substAll (fun _ : string => "NaN") rest); rewrite (IH Hrest);
    [reflexivity|].
  do 2 f_equal. apply existsb_tokens in Hhead. revert t Hhead.
  apply token_cases; reflexivity.
Qed.

Lemma formatDate_invalid_witness :
  let pieces := [Tok "YYYY"; Lit "-"; Tok "MM"; Lit "-"; Tok "DD"]%list in
  wellFormed pieces = true /\ NoDup (tokensOf pieces)
  /\ formatDate cetZone (parseDate cetZone "2024-02") (render pieces)
     = "NaN-NaN-NaN".
Proof.
  intros pieces.
  assert (H1 : wellFormed pieces = true) by reflexivity.
  assert (H2 : NoDup (tokensOf pieces)).
  { repeat constructor; cbn [In]; intros H;
      repeat (destruct H as [H|H]; [discriminate H|]); exact H. }
  split; [exact H1|]. split; [exact H2|].
  exact (formatDate_invalid cetZone pieces H1 H2).
Defined.

(** ** parseDate: the shape of the input *)

Lemma split_length s sep :
  List.length (split s sep) = S (countChar sep s).
Proof.
  induction s as [|x s IH]; [reflexivity|].
  cbn [split countChar]. destruct (Ascii.eqb x sep).
  - cbn [List.length]. now rewrite IH.
  - destruct (split s sep) as [|part parts]; [discriminate IH|].
    cbn [List.length] in *. lia.
Qed.

(** X12.  An input with fewer than two "-", the empty string among them, has
    fewer than three parts and always gives an invalid date. *)
Theorem parseDate_too_few_parts :
  forall tz s,
    (countChar "-" s < 2)%nat ->
    (List.length (split s "-") < 3)%nat /\ parseDate tz s = None.
Proof.
  intros tz s Hcount.
  assert (Hlen : (List.length (split s "-") < 3)%nat)
    by (rewrite split_length; lia).
  split; [exact Hlen|].
  rewrite parseDate_firstThree.
  destruct (split s "-") as [|a [|b [|c rest]]]; cbn [List.length] in Hlen;
    try lia; cbn [map firstThree].
  - reflexivity.
  - destruct (parseInt a); reflexivity.
  - destruct (parseInt a); [destruct (parseInt b)|]; reflexivity.
Qed.

Lemma parseDate_too_few_parts_witness :
  (countChar "-" "2024-03" < 2)%nat /\ parseDate cetZone "2024-03" = None.
Proof.
  assert (H : (countChar "-" "2024-03" < 2)%nat) by (simpl; lia).
  split; [exact H|].
  exact (proj2 (parseDate_too_few_parts cetZone "2024-03" H)).
Defined.

Lemma split_app_head a sep b :
  noChar sep a = true ->
  split (a ++ b) sep
  = match split b sep with
    | (h :: t)%list => ((a ++ h)%string :: t)%list
    | []%list => [a]%list
    end.
Proof.
  intros Ha. induction a as [|x a IH].
  - simpl. destruct (split b sep) eqn:E; [|reflexivity].
    pose proof (split_length b sep) as Hl. rewrite E in Hl. discriminate Hl.
  - unfold noChar in Ha. simpl in Ha. apply andb_prop in Ha as [Hx Ha].
    apply negb_true_iff in Hx.
    change (split (String x a ++ b) sep) with (split (String x (a ++ b)) sep).
    cbn [split]. rewrite Hx, (IH Ha).
    destruct (split b sep); reflexivity.
Qed.

Lemma split_head_noDigit junk sep :
  isDigit sep = false -> noLeadingDigit junk = true ->
  exists h t, split junk sep = (h :: t)%list /\ noLeadingDigit h = true.
Proof.
  intros Hsep Hjunk. destruct junk as [|c junk].
  - exists "", []%list. split; reflexivity.
  - cbn [split]. destruct (Ascii.eqb c sep).
    + eexists. eexists. split; reflexivity.
    + destruct (split junk sep) as [|h t]; eexists; eexists;
        (split; [reflexivity | exact Hjunk]).
Qed.

Lemma scanDigits_app ds x acc :
  allChars isDigit ds = true ->
  scanDigits (ds ++ x) acc = scanDigits x (scanDigits ds acc).
Proof.
  revert acc. induction ds as [|c ds IH]; intros acc Hds; [reflexivity|].
  simpl in Hds. apply andb_prop in Hds as [Hc Hds].
  unfold isDigit in Hc. cbn [append scanDigits].
  destruct (digitValue c); [|discriminate]. now apply IH.
Qed.

Lemma scanDigits_noDigit x acc :
  noLeadingDigit x = true -> scanDigits x acc = acc.
Proof.
  destruct x as [|c x]; [reflexivity|].
  unfold noLeadingDigit, isDigit. cbn [scanDigits].
  destruct (digitValue c); [discriminate | reflexivity].
Qed.

(** [parseInt] reads the digits and ignores what follows them. *)
Lemma parseInt_prefix ds x :
  ds <> "" -> allChars isDigit ds = true -> noLeadingDigit x = true ->
  parseInt (ds ++ x) = parseInt ds.
Proof.
  intros Hne Hds Hx. destruct ds as [|c ds]; [congruence|].
  pose proof Hds as Hds'. simpl in Hds'. apply andb_prop in Hds' as [Hc _].
  change (String c ds ++ x) with (String c (ds ++ x)).
  rewrite !parseInt_digits by assumption.
  change (String c (ds ++ x)) with (String c ds ++ x).
  rewrite scanDigits_app by assumption. now apply scanDigits_noDigit.
Qed.

(** X13.  After the digits of the day anything that does not start with a
    digit is ignored, further parts included: a time of day or a fourth part
    appended to a year-month-day text does not change the result. *)
Theorem parseDate_ignores_trailing_text :
  forall tz ys ms ds junk,
    allChars isDigit ys = true -> allChars isDigit ms = true ->
    allChars isDigit ds = true -> ds <> "" ->
    noLeadingDigit junk = true ->
    parseDate tz (ys ++ "-" ++ ms ++ "-" ++ ds ++ junk)
    = parseDate tz (ys ++ "-" ++ ms ++ "-" ++ ds).
Proof.
  intros tz ys ms ds junk Hys Hms Hds Hne Hjunk.
  rewrite !parseDate_firstThree, (split_ymd ys ms ds Hys Hms Hds).
  change (ys ++ "-" ++ ms ++ "-" ++ ds ++ junk)
    with (ys ++ String "-" (ms ++ String "-" (ds ++ junk))).
  rewrite split_app by (apply digits_noChar; [reflexivity | assumption]).
  rewrite split_app by (apply digits_noChar; [reflexivity | assumption]).
  rewrite split_app_head by (apply digits_noChar; [reflexivity | assumption]).
  destruct (split_head_noDigit junk "-" ltac:(reflexivity) Hjunk)
    as (h & t & -> & Hh).
  cbn [map]. rewrite (parseInt_prefix ds h Hne Hds Hh).
  destruct (parseInt ys), (parseInt ms), (parseInt ds); reflexivity.
Qed.

Lemma parseDate_ignores_trailing_text_witness :
  allChars isDigit "2024" = true /\ allChars isDigit "03" = true
  /\ allChars isDigit "05" = true /\ "05" <> ""
  /\ noLeadingDigit "T10:30:00-08:00" = true
  /\ parseDate cetZone ("2024" ++ "-" ++ "03" ++ "-" ++ "05" ++ "T10:30:00-08:00")
     = parseDate cetZone ("2024" ++ "-" ++ "03" ++ "-" ++ "05").
Proof.
  assert (H1 : allChars isDigit "2024" = true) by reflexivity.
  assert (H2 : allChars isDigit "03" = true) by reflexivity.
  assert (H3 : allChars isDigit "05" = true) by reflexivity.
  assert (H4 : "05" <> "") by discriminate.
  assert (H5 : noLeadingDigit "T10:30:00-08:00" = true) by reflexivity.
  repeat (split; [assumption|]).
  exact (parseDate_ignores_trailing_text cetZone "2024" "03" "05"
           "T10:30:00-08:00" H1 H2 H3 H4 H5).
Defined.

(** X14.  A day beyond the end of the month rolls over: a text whose day is
    [days] more than that of another text with the same year and month
    parses to the other's date plus [days] days, when local midnight of the
    other's date exists in the zone and is in range. *)
Theorem parseDate_day_rolls_over :
  forall tz s1 s2 y m d days rest1 rest2,
    map parseInt (split s1 "-") = (Some y :: Some m :: Some d :: rest1)%list ->
    map parseInt (split s2 "-")
    = (Some y :: Some m :: Some (d + days) :: rest2)%list ->
    keepsLocalTime tz (localMidnight y m d) ->
    parseDate tz s2 = addDays tz (parseDate tz s1) (Some days).
Proof.
  intros tz s1 s2 y m d days rest1 rest2 H1 H2 [Hv Hl].
  rewrite !parseDate_firstThree, H1, H2. cbn [firstThree].
  rewrite (TimeClip_valid _ Hv), (addDays_local tz _ days Hv), Hl.
  do 2 f_equal. unfold localMidnight, MakeDate.
  rewrite MakeDay_shift. lia.
Qed.

Lemma parseDate_day_rolls_over_witness :
  map parseInt (split "2024-02-28" "-") = [Some 2024; Some 2; Some 28]%list
  /\ map parseInt (split "2024-02-31" "-")
     = [Some 2024; Some 2; Some (28 + 3)]%list
  /\ keepsLocalTime cetZone (localMidnight 2024 2 28)
  /\ parseDate cetZone "2024-02-31"
     = addDays cetZone (parseDate cetZone "2024-02-28") (Some 3)
  /\ formatDate cetZone (parseDate cetZone "2024-02-31") "YYYY-MM-DD"
     = "2024-03-02".
Proof.
  assert (H1 : map parseInt (split "2024-02-28" "-")
               = [Some 2024; Some 2; Some 28]%list) by reflexivity.
  assert (H2 : map parseInt (split "2024-02-31" "-")
               = [Some 2024; Some 2; Some (28 + 3)]%list) by reflexivity.
  assert (H3 : keepsLocalTime cetZone (localMidnight 2024 2 28))
    by (split; [vm_compute; discriminate | reflexivity]).
  split; [exact H1|]. split; [exact H2|]. split; [exact H3|].
  split; [|reflexivity].
  exact (parseDate_day_rolls_over cetZone "2024-02-28" "2024-02-31"
           2024 2 28 3 [] [] H1 H2 H3).
Defined.

(** X15.  Formatting what [parseDate] read gives the text back: for a year
    of at least 100, a month from 1 to 12 and a day of that month, written
    as the year's numeral and two digits each for month and day, when local
    midnight of that date exists in the zone and is in range. *)
Theorem parse_then_format :
  forall tz y m d,
    100 <= y -> 1 <= m <= 12 -> 1 <= d <= daysInMonth y m ->
    keepsLocalTime tz (localMidnight y m d) ->
    let s := JsNumber.toString (Some y) ++ "-" ++ twoDigits m ++ "-"
             ++ twoDigits d in
    formatDate tz (parseDate tz s) "YYYY-MM-DD" = s.
Proof.
  intros tz y m d Hy Hm Hd Hkeeps s.
  pose proof (daysInMonth_pos y (m - 1) ltac:(lia)) as Hpos.
  assert (Hd31 : d <= 31).
  { revert Hd. unfold daysInMonth, daysInMonthOf.
    replace m with (m - 1 + 1) by lia.
    assert (Hm' : 0 <= m - 1 <= 11) by lia. revert Hm'.
    generalize (m - 1) as k. intros k Hk.
    month_cases k; destruct (isLeapYear y); lia. }
  assert (Hparts : map parseInt (split s "-")
                   = [Some y; Some m; Some d]%list).
  { unfold s. rewrite split_ymd.
    - cbn [map]. rewrite parseInt_toString by lia.
      rewrite !parseInt_twoDigits by lia. reflexivity.
    - apply toString_nonneg_digits. lia.
    - apply twoDigits_digits. lia.
    - apply twoDigits_digits. lia. }
  destruct (parseDate_fields_zone tz s y m d [] Hparts Hy Hm Hd Hkeeps)
    as (_ & HY & HM & HD & _).
  rewrite formatDate_ymd. unfold tokenText.
  cbn [String.eqb Ascii.eqb Bool.eqb andb].
  rewrite HY, HM, HD. cbn [JsNumber.add JsNumber.lift2].
  replace (m - 1 + 1) with m by lia.
  rewrite !padStart_twoDigits by lia. reflexivity.
Qed.

Lemma parse_then_format_witness :
  100 <= 2024 /\ 1 <= 2 <= 12 /\ 1 <= 29 <= daysInMonth 2024 2
  /\ keepsLocalTime cetZone (localMidnight 2024 2 29)
  /\ formatDate cetZone (parseDate cetZone "2024-02-29") "YYYY-MM-DD"
     = "2024-02-29".
Proof.
  assert (H1 : 100 <= 2024) by lia.
  assert (H2 : 1 <= 2 <= 12) by lia.
  assert (H3 : 1 <= 29 <= daysInMonth 2024 2) by (cbv; split; discriminate).
  assert (H4 : keepsLocalTime cetZone (localMidnight 2024 2 29))
    by (split; [vm_compute; discriminate | reflexivity]).
  repeat (split; [assumption|]).
  exact (parse_then_format cetZone 2024 2 29 H1 H2 H3 H4).
Defined.

(** ** getDaysInMonth, beyond the months 1 to 12 *)

Lemma MakeDay_month_shift y m dt k :
  MakeDay y (m + 12 * k) dt = MakeDay (y + k) m dt.
Proof.
  unfold MakeDay.
  replace (m + 12 * k) with (m + k * 12) by lia.
  rewrite Z.div_add, Z.mod_add by lia.
  replace (y + (m / 12 + k)) with (y + k + m / 12) by lia. reflexivity.
Qed.

(** X16.  Months beyond 1..12 run on into the neighbouring years: twelve
    months more are the same month a year later, in every zone, when neither
    year is one of 0..99, for years of at most 275760 and months of at most
    a million in magnitude.  So month 0 is December of the year before and
    month 13 January of the year after. *)
Theorem getDaysInMonth_month_rolls_over :
  forall tz month year k,
    (year < 0 \/ 99 < year) -> (year + k < 0 \/ 99 < year + k) ->
    Z.abs year <= 275760 -> Z.abs (year + k) <= 275760 ->
    Z.abs month <= 1000000 -> Z.abs (month + 12 * k) <= 1000000 ->
    getDaysInMonth tz (Some (month + 12 * k)) (Some year)
    = getDaysInMonth tz (Some month) (Some (year + k)).
Proof.
  intros tz month year k Hy Hyk _ _ _ _.
  unfold getDaysInMonth, Date.create.
  rewrite !MakeFullYear_outside by assumption.
  now rewrite MakeDay_month_shift.
Qed.

Lemma getDaysInMonth_month_rolls_over_witness :
  (2023 < 0 \/ 99 < 2023) /\ (2023 + 1 < 0 \/ 99 < 2023 + 1)
  /\ Z.abs 2023 <= 275760 /\ Z.abs (2023 + 1) <= 275760
  /\ Z.abs 2 <= 1000000 /\ Z.abs (2 + 12 * 1) <= 1000000
  /\ getDaysInMonth cetZone (Some (2 + 12 * 1)) (Some 2023)
     = getDaysInMonth cetZone (Some 2) (Some (2023 + 1))
  /\ getDaysInMonth cetZone (Some 14) (Some 2023) = Some 29.
Proof.
  assert (H1 : 2023 < 0 \/ 99 < 2023) by lia.
  assert (H2 : 2023 + 1 < 0 \/ 99 < 2023 + 1) by lia.
  assert (H3 : Z.abs 2023 <= 275760) by lia.
  assert (H4 : Z.abs (2023 + 1) <= 275760) by lia.
  assert (H5 : Z.abs 2 <= 1000000) by lia.
  assert (H6 : Z.abs (2 + 12 * 1) <= 1000000) by lia.
  do 6 (split; [assumption|]). split; [|reflexivity].
  exact (getDaysInMonth_month_rolls_over cetZone 2 2023 1 H1 H2 H3 H4 H5 H6).
Defined.

(** X17.  The days of the twelve months of a year add up to the days of the
    year, 365 or 366, when the zone reads local midnight of each month's last
    day as an instant of that day (years 0..99 are read as 1900..1999). *)
Theorem getDaysInMonth_year_total :
  forall tz year,
    (forall month, 1 <= month <= 12 ->
                   keepsLocalDay tz (localMidnight year (month + 1) 0)) ->
    fold_right JsNumber.add (Some 0)
      (map (fun month => getDaysInMonth tz (Some month) (Some year))
           [1; 2; 3; 4; 5; 6; 7; 8; 9; 10; 11; 12])
    = Some (DaysInYear (MakeFullYear year)).
Proof.
  intros tz year Hkeeps. cbn [map fold_right].
  rewrite !getDaysInMonth_zone by (try apply Hkeeps; lia).
  rewrite isLeapYear_DaysInYear. unfold daysInMonth, daysInMonthOf.
  destruct (isLeapYear (MakeFullYear year)); reflexivity.
Qed.

Lemma getDaysInMonth_year_total_witness :
  (forall month, 1 <= month <= 12 ->
                 keepsLocalDay cetZone (localMidnight 2024 (month + 1) 0))
  /\ fold_right JsNumber.add (Some 0)
       (map (fun month => getDaysInMonth cetZone (Some month) (Some 2024))
            [1; 2; 3; 4; 5; 6; 7; 8; 9; 10; 11; 12])
     = Some 366.
Proof.
  assert (H : forall month, 1 <= month <= 12 ->
                keepsLocalDay cetZone (localMidnight 2024 (month + 1) 0)).
  { intros month Hmonth.
    assert (Hcases : month = 1 \/ month = 2 \/ month = 3 \/ month = 4
                     \/ month = 5 \/ month = 6 \/ month = 7 \/ month = 8
                     \/ month = 9 \/ month = 10 \/ month = 11 \/ month = 12)
      by lia.
    repeat (destruct Hcases as [Hcases | Hcases]); subst month;
      (split; [vm_compute; discriminate | reflexivity]). }
  split; [exact H|].
  exact (getDaysInMonth_year_total cetZone 2024 H).
Defined.

(** ** getDayOfYear and getWeekNumber, day by day *)

Lemma DayFromYear_two_digit y :
  0 <= y <= 99 ->
  DayFromYear (1900 + y) - DayFromYear y = if y =? 0 then 693961 else 693960.
Proof.
  intros Hy. unfold DayFromYear.
  destruct (Z.eqb_spec y 0); div_lia.
Qed.

(** In a zone of constant offset [getDayOfYear] counts the days from the
    start of the year that [new Date(year, 0, 0)] builds. *)
Lemma getDayOfYear_days off tv :
  Z.abs off <= msPerDay -> validTime tv ->
  let tl := tv + off in
  -271820 <= YearFromTime tl ->
  getDayOfYear (fixedZone off) (Some tv)
  = Some (Day tl - DayFromYear (MakeFullYear (YearFromTime tl)) + 1).
Proof.
  intros Hoff Hv tl Hlow.
  assert (Hup : YearFromTime tl <= 275760).
  { apply YearFromTime_upper.
    unfold tl, validTime, maxTime, msPerDay in *. lia. }
  assert (Hfull : -271820 <= MakeFullYear (YearFromTime tl) <= 275760).
  { unfold MakeFullYear.
    destruct (Z.leb_spec 0 (YearFromTime tl)),
             (Z.leb_spec (YearFromTime tl) 99); cbn [andb]; lia. }
  unfold getDayOfYear, Date.getFullYear. rewrite localField_fixed. fold tl.
  rewrite create_fixed, MakeDay_month by lia.
  set (F := DayFromYear (MakeFullYear (YearFromTime tl))).
  pose proof (DayFromYear_bounds _ Hfull) as Hb. fold F in Hb.
  change (DaysBeforeMonth (MakeFullYear (YearFromTime tl)) 0) with 0.
  unfold MakeDate. rewrite TimeClip_valid
    by (unfold validTime, maxTime, msPerDay in *; lia).
  unfold Date.getTime.
  cbn [JsNumber.subTime JsNumber.lift2 JsNumber.floorDiv option_map].
  assert (Hnear : -693961 <= Day tl - F <= 366).
  { pose proof (YearFromDay_spec (Day tl)) as Hspec.
    change (YearFromDay (Day tl)) with (YearFromTime tl) in Hspec.
    rewrite DayFromYear_succ in Hspec.
    pose proof (DaysInYear_range (YearFromTime tl)) as Hdiy.
    unfold F, MakeFullYear.
    destruct (Z.leb_spec 0 (YearFromTime tl)),
             (Z.leb_spec (YearFromTime tl) 99); cbn [andb]; try lia.
    pose proof (DayFromYear_two_digit (YearFromTime tl) ltac:(lia)) as Htwo.
    destruct (YearFromTime tl =? 0); lia. }
  rewrite roundDouble_exact
    by (change (2 ^ 53) with 9007199254740992;
        unfold Day, tl, msPerDay in *; div_lia).
  f_equal. change (1000 * 60 * 60 * 24) with msPerDay.
  unfold Day, tl, msPerDay in *. div_lia.
Qed.

Lemma getWeekNumber_days off tv :
  Z.abs off <= msPerDay -> validTime tv ->
  let tl := tv + off in
  -271820 <= YearFromTime tl ->
  exists start,
    getDayOfYear (fixedZone off) (Some tv) = Some (Day tl - start + 1)
    /\ getWeekNumber (fixedZone off) (Some tv)
       = Some (- (- (Day tl - start + 1 + (start + 4) mod 7 + 1) / 7))
    /\ start = DayFromYear (MakeFullYear (YearFromTime tl)).
Proof.
  intros Hoff Hv tl Hlow.
  exists (DayFromYear (MakeFullYear (YearFromTime tl))).
  pose proof (getDayOfYear_days off tv Hoff Hv Hlow) as Hdoy. fold tl in Hdoy.
  split; [exact Hdoy|]. split; [|reflexivity].
  assert (Hup : YearFromTime tl <= 275760).
  { apply YearFromTime_upper.
    unfold tl, validTime, maxTime, msPerDay in *. lia. }
  assert (Hfull : -271820 <= MakeFullYear (YearFromTime tl) <= 275760).
  { unfold MakeFullYear.
    destruct (Z.leb_spec 0 (YearFromTime tl)),
             (Z.leb_spec (YearFromTime tl) 99); cbn [andb]; lia. }
  unfold getWeekNumber. rewrite Hdoy.
  unfold Date.getFullYear, Date.getDay. rewrite localField_fixed. fold tl.
  rewrite create_fixed, MakeDay_month by lia.
  set (F := DayFromYear (MakeFullYear (YearFromTime tl))).
  pose proof (DayFromYear_bounds _ Hfull) as Hb. fold F in Hb.
  change (DaysBeforeMonth (MakeFullYear (YearFromTime tl)) 0) with 0.
  unfold MakeDate. rewrite TimeClip_valid
    by (unfold validTime, maxTime, msPerDay in *; lia).
  rewrite localField_fixed.
  cbn [JsNumber.add JsNumber.lift2 JsNumber.ceilDiv option_map].
  do 4 f_equal. unfold WeekDay. f_equal. f_equal.
  unfold Day, msPerDay. div_lia.
Qed.

Lemma addDays_fixed off tv days :
  validTime tv -> validTime (tv + days * msPerDay) ->
  addDays (fixedZone off) (Some tv) (Some days) = Some (tv + days * msPerDay).
Proof.
  intros Hv Hv'. rewrite addDays_local by assumption.
  rewrite UTC_fixed, LocalTime_fixed.
  replace (tv + off + days * msPerDay - off) with (tv + days * msPerDay) by lia.
  now apply TimeClip_valid.
Qed.

Lemma Day_shift t k : Day (t + k * msPerDay) = Day t + k.
Proof. unfold Day. apply Z.div_add. unfold msPerDay. lia. Qed.

(** X18.  In a zone of constant offset, for a local year outside 0..99,
    [getDayOfYear] lies between 1 and the number of days of the year, and is
    1 exactly on 1 January. *)
Theorem getDayOfYear_range :
  forall off tv,
    Z.abs off <= msPerDay -> validTime tv ->
    let tl := tv + off in
    let year := YearFromTime tl in
    (year < 0 \/ 99 < year) -> -271820 <= year ->
    exists n,
      getDayOfYear (fixedZone off) (Some tv) = Some n
      /\ 1 <= n <= (if isLeapYear year then 366 else 365)
      /\ (n = 1 <-> MonthFromTime tl = 0 /\ DateFromTime tl = 1).
Proof.
  intros off tv Hoff Hv tl year Hout Hlow.
  pose proof (getDayOfYear_days off tv Hoff Hv Hlow) as Hdoy.
  fold tl year in Hdoy. rewrite MakeFullYear_outside in Hdoy by assumption.
  eexists. split; [exact Hdoy|].
  pose proof (YearFromDay_spec (Day tl)) as Hspec.
  change (YearFromDay (Day tl)) with year in Hspec.
  rewrite DayFromYear_succ, isLeapYear_DaysInYear in Hspec.
  split; [lia|].
  pose proof (fields_of_time tl) as [Hdate Hday]. fold year in Hday, Hdate.
  pose proof (MonthFromTime_range tl) as Hm.
  pose proof (DaysBeforeMonth_range year (MonthFromTime tl) Hm) as [Hb0 _].
  split.
  - intros H1.
    assert (Hb : DaysBeforeMonth year (MonthFromTime tl) = 0) by lia.
    split; [|lia].
    destruct (Z.eq_dec (MonthFromTime tl) 0) as [|Hne]; [assumption|].
    exfalso. revert Hb. clear - Hm Hne.
    generalize dependent (MonthFromTime tl). intros m Hm Hne.
    unfold DaysBeforeMonth. rewrite isLeapYear_DaysInYear.
    month_cases m; try lia; leap_cases year; lia.
  - intros [H0 H1]. rewrite H0, H1 in Hday.
    change (DaysBeforeMonth year 0) with 0 in Hday. lia.
Qed.

Lemma getDayOfYear_range_witness :
  Z.abs 3600000 <= msPerDay /\ validTime 1735599600000
  /\ (let tl := 1735599600000 + 3600000 in
      let year := YearFromTime tl in
      (year < 0 \/ 99 < year) /\ -271820 <= year)
  /\ exists n,
       getDayOfYear (fixedZone 3600000) (Some 1735599600000) = Some n
       /\ 1 <= n <= (if isLeapYear 2024 then 366 else 365)
       /\ (n = 1 <-> MonthFromTime (1735599600000 + 3600000) = 0
                     /\ DateFromTime (1735599600000 + 3600000) = 1).
Proof.
  assert (H1 : Z.abs 3600000 <= msPerDay) by (vm_compute; discriminate).
  assert (H2 : validTime 1735599600000) by (vm_compute; discriminate).
  assert (H3 : YearFromTime (1735599600000 + 3600000) < 0
               \/ 99 < YearFromTime (1735599600000 + 3600000))
    by (right; reflexivity).
  assert (H4 : -271820 <= YearFromTime (1735599600000 + 3600000))
    by (vm_compute; discriminate).
  split; [exact H1|]. split; [exact H2|]. split; [split; assumption|].
  exact (getDayOfYear_range 3600000 1735599600000 H1 H2 H3 H4).
Defined.

(** X19.  In a zone of constant offset, for a local year from 0 to 99,
    [getDayOfYear] counts from the year 1900 later: the result is the ordinal
    day less the 693960 days of those nineteen centuries (693961 in the year
    0), a negative number. *)
Theorem getDayOfYear_two_digit_year :
  forall off tv,
    Z.abs off <= msPerDay -> validTime tv ->
    let tl := tv + off in
    let year := YearFromTime tl in
    0 <= year <= 99 ->
    exists n,
      getDayOfYear (fixedZone off) (Some tv) = Some n
      /\ n = ordinalDay year (MonthFromTime tl + 1) (DateFromTime tl)
             - (if year =? 0 then 693961 else 693960)
      /\ n < 0.
Proof.
  intros off tv Hoff Hv tl year Hyear.
  pose proof (getDayOfYear_days off tv Hoff Hv ltac:(fold tl year; lia)) as Hdoy.
  fold tl year in Hdoy.
  assert (Hfull : MakeFullYear year = 1900 + year).
  { unfold MakeFullYear.
    destruct (Z.leb_spec 0 year), (Z.leb_spec year 99); cbn [andb]; lia. }
  rewrite Hfull in Hdoy.
  eexists. split; [exact Hdoy|].
  pose proof (DayFromYear_two_digit year Hyear) as Hdiff.
  pose proof (fields_of_time tl) as [_ Hday]. fold year in Hday.
  rewrite ordinalDay_DaysBeforeMonth by apply MonthFromTime_range.
  pose proof (YearFromDay_spec (Day tl)) as Hspec.
  change (YearFromDay (Day tl)) with year in Hspec.
  rewrite DayFromYear_succ in Hspec.
  pose proof (DaysInYear_range year) as Hdiy.
  destruct (year =? 0); lia.
Qed.

Lemma getDayOfYear_two_digit_year_witness :
  Z.abs 0 <= msPerDay /\ validTime tv_0050_01_01
  /\ 0 <= YearFromTime (tv_0050_01_01 + 0) <= 99
  /\ exists n,
       getDayOfYear (fixedZone 0) (Some tv_0050_01_01) = Some n
       /\ n = ordinalDay 50 1 1 - 693960
       /\ n < 0.
Proof.
  assert (H1 : Z.abs 0 <= msPerDay) by (vm_compute; discriminate).
  assert (H2 : validTime tv_0050_01_01) by (vm_compute; discriminate).
  assert (H3 : 0 <= YearFromTime (tv_0050_01_01 + 0) <= 99)
    by (vm_compute; split; discriminate).
  split; [exact H1|]. split; [exact H2|]. split; [exact H3|].
  exact (getDayOfYear_two_digit_year 0 tv_0050_01_01 H1 H2 H3).
Defined.

(** X20.  In a zone of constant offset, for a local year outside 0..99,
    [getWeekNumber] lies between 1 and 54; in a year whose 1 January is a
    Saturday no day has the number 1. *)
Theorem getWeekNumber_range :
  forall off tv,
    Z.abs off <= msPerDay -> validTime tv ->
    let tl := tv + off in
    let year := YearFromTime tl in
    (year < 0 \/ 99 < year) -> -271820 <= year ->
    exists w,
      getWeekNumber (fixedZone off) (Some tv) = Some w
      /\ 1 <= w <= 54
      /\ (weekdayOfJan1 year = 6 -> 2 <= w).
Proof.
  intros off tv Hoff Hv tl year Hout Hlow.
  destruct (getWeekNumber_days off tv Hoff Hv Hlow) as (start & _ & Hw & Hs).
  fold tl year in Hw, Hs. rewrite MakeFullYear_outside in Hs by assumption.
  eexists. split; [exact Hw|].
  pose proof (YearFromDay_spec (Day tl)) as Hspec.
  change (YearFromDay (Day tl)) with year in Hspec.
  rewrite DayFromYear_succ in Hspec. rewrite <- Hs in Hspec.
  pose proof (DaysInYear_range year) as Hdiy.
  assert (Hwd : weekdayOfJan1 year = (start + 4) mod 7).
  { unfold weekdayOfJan1, WeekDay, TimeFromYear, Day. rewrite <- Hs.
    f_equal. f_equal. unfold msPerDay. div_lia. }
  rewrite Hwd. split; [|intros H6]; div_lia.
Qed.

Lemma getWeekNumber_range_witness :
  Z.abs 0 <= msPerDay /\ validTime 946684800000
  /\ (let year := YearFromTime (946684800000 + 0) in
      (year < 0 \/ 99 < year) /\ -271820 <= year)
  /\ weekdayOfJan1 2000 = 6
  /\ Date.getMonth utcZone (Some 946684800000) = Some 0
  /\ Date.getDate utcZone (Some 946684800000) = Some 1
  /\ getWeekNumber (fixedZone 0) (Some 946684800000) = Some 2
  /\ exists w,
       getWeekNumber (fixedZone 0) (Some 946684800000) = Some w
       /\ 1 <= w <= 54
       /\ (weekdayOfJan1 2000 = 6 -> 2 <= w).
Proof.
  assert (H1 : Z.abs 0 <= msPerDay) by (vm_compute; discriminate).
  assert (H2 : validTime 946684800000) by (vm_compute; discriminate).
  assert (H3 : YearFromTime (946684800000 + 0) < 0
               \/ 99 < YearFromTime (946684800000 + 0))
    by (right; reflexivity).
  assert (H4 : -271820 <= YearFromTime (946684800000 + 0))
    by (vm_compute; discriminate).
  split; [exact H1|]. split; [exact H2|]. split; [split; assumption|].
  do 4 (split; [reflexivity|]).
  exact (getWeekNumber_range 0 946684800000 H1 H2 H3 H4).
Defined.

(** X21.  In a zone of constant offset, a day later within the same local
    year the day of the year is one more, and the week number is one more
    when that later day is a Saturday and unchanged otherwise: the weeks of
    [getWeekNumber] run from Saturday to Friday.  This holds in the years
    0..99 too. *)
Theorem next_day_same_year :
  forall off tv,
    Z.abs off <= msPerDay -> validTime tv -> validTime (tv + msPerDay) ->
    let zone := fixedZone off in
    let next := addDays zone (Some tv) (Some 1) in
    -271820 <= YearFromTime (tv + off) ->
    Date.getFullYear zone next = Date.getFullYear zone (Some tv) ->
    getDayOfYear zone next
    = JsNumber.add (getDayOfYear zone (Some tv)) (Some 1)
    /\ getWeekNumber zone next
       = JsNumber.add (getWeekNumber zone (Some tv))
           (if JsNumber.strictEq (Date.getDay zone next) (Some 6)
            then Some 1 else Some 0).
Proof.
  intros off tv Hoff Hv Hv' zone next Hlow Hyear.
  assert (Hnext : next = Some (tv + msPerDay)).
  { unfold next, zone. rewrite addDays_fixed; rewrite ?Z.mul_1_l; auto. }
  rewrite Hnext in *. unfold zone in *.
  unfold Date.getFullYear, Date.getDay in *.
  rewrite !localField_fixed in *.
  assert (Hy : YearFromTime (tv + msPerDay + off) = YearFromTime (tv + off))
    by congruence.
  clear Hyear.
  assert (Hlow' : -271820 <= YearFromTime (tv + msPerDay + off))
    by (rewrite Hy; exact Hlow).
  destruct (getWeekNumber_days off tv Hoff Hv Hlow) as (s & Hd & Hw & Hs).
  destruct (getWeekNumber_days off _ Hoff Hv' Hlow') as (s' & Hd' & Hw' & Hs').
  rewrite Hy, <- Hs in Hs'. subst s'.
  rewrite Hd, Hd', Hw, Hw'.
  replace (tv + msPerDay + off) with (tv + off + 1 * msPerDay) by lia.
  rewrite Day_shift. unfold WeekDay. rewrite Day_shift.
  cbn [JsNumber.add JsNumber.lift2 JsNumber.strictEq].
  split; [f_equal; lia|].
  destruct (Z.eqb_spec ((Day (tv + off) + 1 + 4) mod 7) 6) as [H6|H6];
    cbn [JsNumber.add JsNumber.lift2]; f_equal; div_lia.
Qed.

Lemma next_day_same_year_witness :
  Z.abs 3600000 <= msPerDay /\ validTime 1709852400000
  /\ validTime (1709852400000 + msPerDay)
  /\ -271820 <= YearFromTime (1709852400000 + 3600000)
  /\ (let zone := fixedZone 3600000 in
      let next := addDays zone (Some 1709852400000) (Some 1) in
      Date.getFullYear zone next = Date.getFullYear zone (Some 1709852400000)
      /\ Date.getDay zone next = Some 6
      /\ getDayOfYear zone next
         = JsNumber.add (getDayOfYear zone (Some 1709852400000)) (Some 1)
      /\ getWeekNumber zone next
         = JsNumber.add (getWeekNumber zone (Some 1709852400000))
             (if JsNumber.strictEq (Date.getDay zone next) (Some 6)
              then Some 1 else Some 0)).
Proof.
  assert (H1 : Z.abs 3600000 <= msPerDay) by (vm_compute; discriminate).
  assert (H2 : validTime 1709852400000) by (vm_compute; discriminate).
  assert (H3 : validTime (1709852400000 + msPerDay))
    by (vm_compute; discriminate).
  assert (H4 : -271820 <= YearFromTime (1709852400000 + 3600000))
    by (vm_compute; discriminate).
  assert (H5 : Date.getFullYear (fixedZone 3600000)
                 (addDays (fixedZone 3600000) (Some 1709852400000) (Some 1))
               = Date.getFullYear (fixedZone 3600000) (Some 1709852400000))
    by reflexivity.
  split; [exact H1|]. split; [exact H2|]. split; [exact H3|].
  split; [exact H4|]. split; [exact H5|]. split; [reflexivity|].
  exact (next_day_same_year 3600000 1709852400000 H1 H2 H3 H4 H5).
Defined.
